(** * Messenger backend: conversation index, message log, resolver, controllers

    A shallow embedding of [app/models/cassandra_models.py] and of the two
    controllers in [app/controllers/], with the storage accessor they talk to
    modelled as an explicit store that every operation threads through.

    Identifiers ([uuid.UUID]) and instants ([datetime]) are integers;
    [uuid.uuid4()] and [datetime.utcnow()] are read from the caller: every
    operation that draws a fresh identifier or reads the clock takes the drawn
    value as an argument. *)

From Stdlib Require Import ZArith List String Bool Lia Permutation Sorted.
Import ListNotations.
Open Scope string_scope.
Open Scope list_scope.
Open Scope Z_scope.

Definition UUID := Z.
Definition datetime := Z.

(** ** Ordering rows by a key, most recent first *)

Section OrderBy.
Context {A : Type} (key : A -> Z).

(** [ORDER BY key DESC]: an insertion sort, largest key first. *)
Fixpoint insert_desc (x : A) (l : list A) : list A :=
  match l with
  | [] => [x]
  | y :: l' => if key y <? key x then x :: y :: l' else y :: insert_desc x l'
  end.

Fixpoint order_by_desc (l : list A) : list A :=
  match l with
  | [] => []
  | x :: l' => insert_desc x (order_by_desc l')
  end.

(** Weakly and strictly descending lists. *)
Definition descending : list A -> Prop :=
  StronglySorted (fun x y => key y <= key x).
Definition strictly_descending : list A -> Prop :=
  StronglySorted (fun x y => key y < key x).

(** The smallest key of a page, [None] for the empty page. *)
Fixpoint min_key (l : list A) : option Z :=
  match l with
  | [] => None
  | x :: l' => match min_key l' with
               | None => Some (key x)
               | Some m => Some (Z.min (key x) m)
               end
  end.
End OrderBy.

(** ** The store *)

Module Storage.

(** Modelled from the spec: the storage accessor [cassandra_client.execute]
    of [app/db/cassandra_client.py], which is not part of the sources, and
    the two tables of the data model it reads and writes.  A table is the
    list of its rows in storage order.  A membership row is keyed by
    [(user_id, last_message_ts)] and a message row by
    [(conversation_id, timestamp)], as [scripts/setup_db.py] declares the
    primary keys; an [INSERT] under a key that is already stored overwrites
    the stored row.  Each statement the models issue is one function below,
    read as the statement is written: [WHERE] keeps the rows that satisfy the
    condition, [ORDER BY ... DESC] sorts them, [LIMIT] keeps the first ones,
    [UPDATE ... SET] rewrites the column of every row that satisfies the
    condition.  Three things neither the sources nor the data model settle
    are fixed here for the computations and left open in the statements:
    the order in which a read without [ORDER BY] lists its rows (storage
    order here; [select_conversation_of_listed] is the other reading of the
    probe), what the [UPDATE] of a key column does to the rows under the
    earlier stamps (rewritten in place here; [restamp_last_message_ts] keeps
    them), and the key of the table [messages] (taken from the message table
    of [scripts/setup_db.py]).  Instants are compared at the resolution the
    store keeps them. *)
Record conversation_row := {
  user_id : UUID;
  last_message_ts : datetime;
  conversation_id : UUID;
  peer_id : UUID
}.

Record message_row := {
  message_id : UUID;
  msg_conversation_id : UUID;
  sender_id : UUID;
  content : string;
  timestamp : datetime
}.

(** Modelled from the spec: the state behind [cassandra_client], the two
    tables [conversations_by_user] and [messages] of the data model. *)
Record Store := {
  conversations_by_user : list conversation_row;
  messages : list message_row
}.

Definition empty : Store :=
  {| conversations_by_user := []; messages := [] |}.

(** Insert under a primary key: the row replaces the stored row with the
    same key, and is added at the end when there is none. *)
Section Upsert.
Context {R : Type} (same_key : R -> R -> bool).

Fixpoint upsert (r : R) (l : list R) : list R :=
  match l with
  | [] => [r]
  | x :: l' => if same_key r x then r :: l' else x :: upsert r l'
  end.
End Upsert.

Definition same_conversation_key (r x : conversation_row) : bool :=
  (user_id r =? user_id x) && (last_message_ts r =? last_message_ts x).

Definition same_message_key (r x : message_row) : bool :=
  (msg_conversation_id r =? msg_conversation_id x)
  && (timestamp r =? timestamp x).

(** [LIMIT n]. *)
Definition limit_rows {R : Type} (n : Z) (l : list R) : list R :=
  firstn (Z.to_nat n) l.

(** [SELECT conversation_id, peer_id, last_message_ts
     FROM conversations_by_user
     WHERE user_id = %s AND last_message_ts < %s
     ORDER BY last_message_ts DESC LIMIT %s] *)
Definition select_user_conversations
    (s : Store) (user : UUID) (before : datetime) (limit : Z)
  : list conversation_row :=
  limit_rows limit
    (order_by_desc last_message_ts
       (filter (fun r => (user_id r =? user) && (last_message_ts r <? before))
               (conversations_by_user s))).

(** [SELECT conversation_id, peer_id FROM conversations_by_user
     WHERE conversation_id = %s], the rows listed in storage order; which
    row of a conversation a store lists first is not settled by the
    sources. *)
Definition select_conversation (s : Store) (c : UUID)
  : list conversation_row :=
  filter (fun r => conversation_id r =? c) (conversations_by_user s).

(** [SELECT conversation_id FROM conversations_by_user
     WHERE user_id IN (%s, %s) LIMIT 1], on a store that lists the rows of
    the two partitions in storage order. *)
Definition select_conversation_of_either (s : Store) (a b : UUID)
  : list conversation_row :=
  limit_rows 1
    (filter (fun r => (user_id r =? a) || (user_id r =? b))
            (conversations_by_user s)).

(** [INSERT INTO conversations_by_user
     (user_id, last_message_ts, conversation_id, peer_id)
     VALUES (%s, %s, %s, %s)] *)
Definition insert_conversation
    (s : Store) (user : UUID) (ts : datetime) (c peer : UUID) : Store :=
  {| conversations_by_user :=
       upsert same_conversation_key
         {| user_id := user; last_message_ts := ts;
            conversation_id := c; peer_id := peer |}
         (conversations_by_user s);
     messages := messages s |}.

(** [INSERT INTO messages
     (message_id, conversation_id, sender_id, content, timestamp)
     VALUES (%s, %s, %s, %s, %s)] *)
Definition insert_message
    (s : Store) (m c sender : UUID) (text : string) (ts : datetime) : Store :=
  {| conversations_by_user := conversations_by_user s;
     messages :=
       upsert same_message_key
         {| message_id := m; msg_conversation_id := c; sender_id := sender;
            content := text; timestamp := ts |}
         (messages s) |}.

(** [UPDATE conversations_by_user SET last_message_ts = %s
     WHERE conversation_id = %s], on a store that rewrites the stamp of the
    rows in place. *)
Definition set_last_message_ts (ts : datetime) (r : conversation_row)
  : conversation_row :=
  {| user_id := user_id r; last_message_ts := ts;
     conversation_id := conversation_id r; peer_id := peer_id r |}.

Definition update_last_message_ts (s : Store) (ts : datetime) (c : UUID)
  : Store :=
  {| conversations_by_user :=
       map (fun r => if conversation_id r =? c
                     then set_last_message_ts ts r else r)
           (conversations_by_user s);
     messages := messages s |}.

(** [SELECT message_id, sender_id, content, timestamp FROM messages
     WHERE conversation_id = %s AND timestamp < %s
     ORDER BY timestamp DESC LIMIT %s] *)
Definition select_messages
    (s : Store) (c : UUID) (before : datetime) (limit : Z)
  : list message_row :=
  limit_rows limit
    (order_by_desc timestamp
       (filter (fun r => (msg_conversation_id r =? c) && (timestamp r <? before))
               (messages s))).

(** The messages a conversation holds, in storage order. *)
Definition messages_of (s : Store) (c : UUID) : list message_row :=
  filter (fun r => msg_conversation_id r =? c) (messages s).

(** Modelled from the spec: the probe
    [WHERE user_id IN (%s, %s) LIMIT 1] on a store that reads the listed
    partitions one after the other, in the order the [IN] restriction names
    them. *)
Definition select_conversation_of_listed (s : Store) (a b : UUID)
  : list conversation_row :=
  limit_rows 1
    (filter (fun r => user_id r =? a) (conversations_by_user s)
     ++ filter (fun r => user_id r =? b) (conversations_by_user s)).


End Storage.

(** ** The models: [app/models/cassandra_models.py] *)

(** The dictionaries the models hand back. *)
Record conversation_dict := {
  cd_conversation_id : UUID;
  cd_peer_id : UUID;
  cd_last_message_ts : datetime
}.

Record conversation_ref := {
  cr_conversation_id : UUID;
  cr_peer_id : UUID
}.

Record message_dict := {
  md_message_id : UUID;
  md_sender_id : UUID;
  md_content : string;
  md_timestamp : datetime
}.

Module ConversationModel.
Import Storage.

Definition to_dict (row : conversation_row) : conversation_dict :=
  {| cd_conversation_id := conversation_id row;
     cd_peer_id := peer_id row;
     cd_last_message_ts := last_message_ts row |}.

(** [get_user_conversations(user_id, limit, before_ts=None)];
    [utcnow] is the clock reading the call would take. *)
Definition get_user_conversations
    (s : Store) (utcnow : datetime)
    (user : UUID) (limit : Z) (before_ts : option datetime)
  : list conversation_dict :=
  let bound := match before_ts with Some t => t | None => utcnow end in
  map to_dict (select_user_conversations s user bound limit).

(** [get_conversation(conversation_id)]: the first matching row, or the
    empty dictionary ([None]). *)
Definition get_conversation (s : Store) (c : UUID) : option conversation_ref :=
  match select_conversation s c with
  | row :: _ => Some {| cr_conversation_id := conversation_id row;
                        cr_peer_id := peer_id row |}
  | [] => None
  end.

(** [create_or_get_conversation(user_a, user_b)]; [uuid4] is the identifier
    the call would draw and [utcnow] its clock reading. *)
Definition create_or_get_conversation
    (s : Store) (uuid4 : UUID) (utcnow : datetime) (user_a user_b : UUID)
  : Store * UUID :=
  match select_conversation_of_either s user_a user_b with
  | row :: _ => (s, conversation_id row)
  | [] =>
      let s1 := insert_conversation s user_a utcnow uuid4 user_b in
      let s2 := insert_conversation s1 user_b utcnow uuid4 user_a in
      (s2, uuid4)
  end.

(** [create_or_get_conversation] on a store whose probe
    [WHERE user_id IN (user_a, user_b) LIMIT 1] is answered by [probe]. *)
Definition create_or_get_conversation_reading
    (probe : Store -> UUID -> UUID -> list conversation_row)
    (s : Store) (uuid4 : UUID) (utcnow : datetime) (user_a user_b : UUID)
  : Store * UUID :=
  match probe s user_a user_b with
  | row :: _ => (s, conversation_id row)
  | [] =>
      let s1 := insert_conversation s user_a utcnow uuid4 user_b in
      let s2 := insert_conversation s1 user_b utcnow uuid4 user_a in
      (s2, uuid4)
  end.

End ConversationModel.

Module MessageModel.
Import Storage.

Definition to_dict (row : message_row) : message_dict :=
  {| md_message_id := message_id row;
     md_sender_id := sender_id row;
     md_content := content row;
     md_timestamp := timestamp row |}.

(** [create_message(sender_id, conversation_id, content, timestamp=None)]. *)
Definition create_message
    (s : Store) (uuid4 : UUID) (utcnow : datetime)
    (sender c : UUID) (text : string) (ts : option datetime)
  : Store * UUID :=
  let t := match ts with Some t => t | None => utcnow end in
  let s1 := insert_message s uuid4 c sender text t in
  let s2 := update_last_message_ts s1 t c in
  (s2, uuid4).

(** [get_conversation_messages(conversation_id, limit=20, before_ts=None)]. *)
Definition get_conversation_messages
    (s : Store) (utcnow : datetime)
    (c : UUID) (limit : Z) (before_ts : option datetime)
  : list message_dict :=
  let bound := match before_ts with Some t => t | None => utcnow end in
  map to_dict (select_messages s c bound limit).

(** [get_messages_before_timestamp(conversation_id, before_timestamp,
    limit=20)]. *)
Definition get_messages_before_timestamp
    (s : Store) (utcnow : datetime)
    (c : UUID) (before_timestamp : datetime) (limit : Z)
  : list message_dict :=
  get_conversation_messages s utcnow c limit (Some before_timestamp).

(** [create_message] on a store whose
    [UPDATE conversations_by_user SET last_message_ts] is [update]. *)
Definition create_message_with
    (update : Store -> datetime -> UUID -> Store)
    (s : Store) (uuid4 : UUID) (utcnow : datetime)
    (sender c : UUID) (text : string) (ts : option datetime)
  : Store * UUID :=
  let t := match ts with Some t => t | None => utcnow end in
  let s1 := insert_message s uuid4 c sender text t in
  let s2 := update s1 t c in
  (s2, uuid4).

End MessageModel.

(** ** Calls, exceptions and schema objects *)

Module Python.

(** The exceptions the controllers can meet: the three ways a call can be
    refused with a [TypeError], a missing attribute, a schema validation
    error, and [HTTPException].  A [detail] is either a literal text or an
    [f"...: {str(e)}"] string, kept as its literal prefix and the exception
    [e] it was formatted from. *)
Inductive exn :=
| UnexpectedKeyword (callee argument : string)
| MissingArguments (callee : string) (arguments : list string)
| BadArgument (callee argument : string)
| AttributeError (owner attribute : string)
| ValidationError (model : string) (missing : list string)
| HTTPException (status_code : Z) (detail : http_detail)
with http_detail :=
| Literal (text : string)
| Formatted (prefix : string) (e : exn).

Definition status_of (e : exn) : option Z :=
  match e with
  | HTTPException code _ => Some code
  | _ => None
  end.

Definition result (A : Type) : Type := (exn + A)%type.

Definition HTTP_404_NOT_FOUND : Z := 404.
Definition HTTP_500_INTERNAL_SERVER_ERROR : Z := 500.

Inductive value :=
| VNone
| VUuid (u : UUID)
| VInt (n : Z)
| VStr (s : string)
| VTime (t : datetime)
| VConversations (l : list conversation_dict)
| VMessages (l : list message_dict).

Definition keywords := list (string * value).

Fixpoint lookup (name : string) (kw : keywords) : option value :=
  match kw with
  | [] => None
  | (k, v) :: kw' => if String.eqb k name then Some v else lookup name kw'
  end.

(** A declared parameter or schema field, with its default if it has one. *)
Record parameter := { p_name : string; p_default : option value }.

Definition required (name : string) : parameter :=
  {| p_name := name; p_default := None |}.
Definition optional (name : string) (v : value) : parameter :=
  {| p_name := name; p_default := Some v |}.

Definition declares (params : list parameter) (name : string) : bool :=
  existsb (fun p => String.eqb (p_name p) name) params.

Definition unfilled (params : list parameter) (kw : keywords) : list string :=
  map p_name
    (filter (fun p => match lookup (p_name p) kw, p_default p with
                      | None, None => true
                      | _, _ => false
                      end) params).

Definition fill (params : list parameter) (kw : keywords) : keywords :=
  map (fun p => (p_name p,
                 match lookup (p_name p) kw, p_default p with
                 | Some v, _ => v
                 | None, Some d => d
                 | None, None => VNone
                 end)) params.

(** Binding the keyword arguments of a call to the declared parameters:
    a keyword the callee does not declare is refused first, then a
    parameter left without a value. *)
Definition bind (callee : string) (params : list parameter) (kw : keywords)
  : result keywords :=
  match find (fun a => negb (declares params (fst a))) kw with
  | Some (k, _) => inl (UnexpectedKeyword callee k)
  | None =>
      match unfilled params kw with
      | [] => inr (fill params kw)
      | names => inl (MissingArguments callee names)
      end
  end.

(** Building a schema object: keywords that are no field are dropped, a
    required field left without a value is a validation error. *)
Definition construct (model : string) (fields : list parameter) (kw : keywords)
  : result keywords :=
  match unfilled fields kw with
  | [] => inr (fill fields kw)
  | names => inl (ValidationError model names)
  end.

Definition get_uuid (callee name : string) (kw : keywords) : result UUID :=
  match lookup name kw with
  | Some (VUuid u) => inr u
  | _ => inl (BadArgument callee name)
  end.

Definition get_int (callee name : string) (kw : keywords) : result Z :=
  match lookup name kw with
  | Some (VInt n) => inr n
  | _ => inl (BadArgument callee name)
  end.

Definition get_str (callee name : string) (kw : keywords) : result string :=
  match lookup name kw with
  | Some (VStr s) => inr s
  | _ => inl (BadArgument callee name)
  end.

Definition get_optional_time (callee name : string) (kw : keywords)
  : result (option datetime) :=
  match lookup name kw with
  | Some (VTime t) => inr (Some t)
  | Some VNone => inr None
  | _ => inl (BadArgument callee name)
  end.

Definition get_time (callee name : string) (kw : keywords) : result datetime :=
  match lookup name kw with
  | Some (VTime t) => inr t
  | _ => inl (BadArgument callee name)
  end.

Definition bind_result {A B : Type} (m : result A) (k : A -> result B)
  : result B :=
  match m with
  | inl e => inl e
  | inr a => k a
  end.

(** [try: body  except Exception as e: raise HTTPException(500, f"...")]:
    every exception of the body, an [HTTPException] raised inside it
    included, leaves as an internal server error. *)
Definition except_Exception {A : Type} (prefix : string) (body : result A)
  : result A :=
  match body with
  | inl e => inl (HTTPException HTTP_500_INTERNAL_SERVER_ERROR
                                (Formatted prefix e))
  | inr a => inr a
  end.

End Python.

Notation "x <- m ;; k" := (Python.bind_result m (fun x => k))
  (at level 61, m at next level, right associativity).

(** ** The controllers: [app/controllers/] *)

Module ConversationController.
Import Python.

(** The fields of [app/schemas/conversation.py]. *)
Definition ConversationResponse : list parameter :=
  [ required "conversation_id"; required "peer_id";
    required "last_message_ts"; optional "last_message_content" VNone ].

Definition PaginatedConversationResponse : list parameter :=
  [ required "total"; required "page"; required "limit"; required "data" ].

(** [get_user_conversations(self, user_id, page=1, limit=20)];
    [utcnow] is the controller's clock reading, [utcnow'] the one the model
    would take. *)
Definition get_user_conversations
    (s : Storage.Store) (utcnow utcnow' : datetime)
    (user : UUID) (page limit : Z)
  : result keywords :=
  except_Exception "An error occurred while retrieving conversations: "
    (let before_ts := utcnow in
     let conversations :=
       ConversationModel.get_user_conversations
         s utcnow' user limit (Some before_ts) in
     match conversations with
     | [] => inl (HTTPException HTTP_404_NOT_FOUND
                    (Literal "No conversations found for this user"))
     | _ :: _ =>
         construct "PaginatedConversationResponse"
           PaginatedConversationResponse
           [ ("conversations", VConversations conversations);
             ("page", VInt page);
             ("limit", VInt limit);
             ("total", VInt (Z.of_nat (List.length conversations))) ]
     end).

(** [get_conversation(self, conversation_id)]. *)
Definition get_conversation (s : Storage.Store) (c : UUID)
  : result keywords :=
  except_Exception "An error occurred while retrieving the conversation: "
    (match ConversationModel.get_conversation s c with
     | None => inl (HTTPException HTTP_404_NOT_FOUND
                      (Literal "Conversation not found"))
     | Some conversation =>
         construct "ConversationResponse" ConversationResponse
           [ ("conversation_id", VUuid (cr_conversation_id conversation));
             ("peer_id", VUuid (cr_peer_id conversation)) ]
     end).

(** [create_or_get_conversation(self, user_a, user_b)]. *)
Definition create_or_get_conversation
    (s : Storage.Store) (uuid4 : UUID) (utcnow : datetime)
    (user_a user_b : UUID)
  : Storage.Store * result UUID :=
  let '(s', conversation_id) :=
    ConversationModel.create_or_get_conversation
      s uuid4 utcnow user_a user_b in
  (s',
   except_Exception
     "An error occurred while creating or retrieving the conversation: "
     (inr conversation_id)).

End ConversationController.

Module MessageController.
Import Python.

(** What [class MessageModel] defines. *)
Definition MessageModel_attributes : list string :=
  [ "create_message"; "get_conversation_messages";
    "get_messages_before_timestamp" ].

Definition create_message_parameters : list parameter :=
  [ required "sender_id"; required "conversation_id"; required "content";
    optional "timestamp" VNone ].

Definition get_conversation_messages_parameters : list parameter :=
  [ required "conversation_id"; optional "limit" (VInt 20);
    optional "before_ts" VNone ].

Definition get_messages_before_timestamp_parameters : list parameter :=
  [ required "conversation_id"; required "before_timestamp";
    optional "limit" (VInt 20) ].

(** [MessageModel.create_message], called with keyword arguments [kw]. *)
Definition call_create_message
    (s : Storage.Store) (uuid4 : UUID) (utcnow : datetime) (kw : keywords)
  : Storage.Store * result UUID :=
  let callee := "create_message" in
  match
    (b <- bind callee create_message_parameters kw ;;
     sender <- get_uuid callee "sender_id" b ;;
     c <- get_uuid callee "conversation_id" b ;;
     text <- get_str callee "content" b ;;
     ts <- get_optional_time callee "timestamp" b ;;
     inr (sender, c, text, ts))
  with
  | inl e => (s, inl e)
  | inr (sender, c, text, ts) =>
      let '(s', message_id) :=
        MessageModel.create_message s uuid4 utcnow sender c text ts in
      (s', inr message_id)
  end.

(** [MessageModel.get_conversation_messages], called with keyword arguments [kw]. *)
Definition call_get_conversation_messages
    (s : Storage.Store) (utcnow : datetime) (kw : keywords)
  : result (list message_dict) :=
  let callee := "get_conversation_messages" in
  b <- bind callee get_conversation_messages_parameters kw ;;
  c <- get_uuid callee "conversation_id" b ;;
  limit <- get_int callee "limit" b ;;
  before_ts <- get_optional_time callee "before_ts" b ;;
  inr (MessageModel.get_conversation_messages s utcnow c limit before_ts).

(** [MessageModel.get_messages_before_timestamp], called with keyword arguments [kw]. *)
Definition call_get_messages_before_timestamp
    (s : Storage.Store) (utcnow : datetime) (kw : keywords)
  : result (list message_dict) :=
  let callee := "get_messages_before_timestamp" in
  b <- bind callee get_messages_before_timestamp_parameters kw ;;
  c <- get_uuid callee "conversation_id" b ;;
  before_timestamp <- get_time callee "before_timestamp" b ;;
  limit <- get_int callee "limit" b ;;
  inr (MessageModel.get_messages_before_timestamp
         s utcnow c before_timestamp limit).

(** The request body of [send_message]. *)
Record MessageCreate := {
  mc_sender_id : UUID;
  mc_receiver_id : UUID;
  mc_content : string
}.

Section Schemas.
(** The response schemas of [app/schemas/message.py] are not part of the
    sources; their field lists are left open. *)
Variables MessageResponse PaginatedMessageResponse : list parameter.

(** [send_message(self, message_data)].  [MessageModel] defines no
    [get_message_by_id], so looking it up raises and the statements after
    it are never reached. *)
Definition send_message
    (s : Storage.Store) (uuid4 : UUID) (utcnow utcnow' : datetime)
    (message_data : MessageCreate)
  : Storage.Store * result keywords :=
  let '(s', created) :=
    call_create_message s uuid4 utcnow'
      [ ("sender_id", VUuid (mc_sender_id message_data));
        ("receiver_id", VUuid (mc_receiver_id message_data));
        ("content", VStr (mc_content message_data));
        ("timestamp", VTime utcnow) ] in
  (s',
   except_Exception "An error occurred while sending the message: "
     (message_id <- created ;;
      inl (AttributeError "MessageModel" "get_message_by_id"))).

(** [get_conversation_messages(self, conversation_id, page=1, limit=20)]. *)
Definition get_conversation_messages
    (s : Storage.Store) (utcnow : datetime) (c : UUID) (page limit : Z)
  : result keywords :=
  except_Exception "An error occurred while retrieving messages: "
    (messages <-
       call_get_conversation_messages s utcnow
         [ ("conversation_id", VUuid c); ("page", VInt page);
           ("limit", VInt limit) ] ;;
     match messages with
     | [] => inl (HTTPException HTTP_404_NOT_FOUND
                    (Literal "No messages found for this conversation"))
     | _ :: _ =>
         construct "PaginatedMessageResponse" PaginatedMessageResponse
           [ ("messages", VMessages messages); ("page", VInt page);
             ("limit", VInt limit);
             ("total", VInt (Z.of_nat (List.length messages))) ]
     end).

(** [get_messages_before_timestamp(self, conversation_id,
    before_timestamp, page=1, limit=20)]. *)
Definition get_messages_before_timestamp
    (s : Storage.Store) (utcnow : datetime)
    (c : UUID) (before_timestamp : datetime) (page limit : Z)
  : result keywords :=
  except_Exception "An error occurred while retrieving messages: "
    (messages <-
       call_get_messages_before_timestamp s utcnow
         [ ("conversation_id", VUuid c);
           ("before_timestamp", VTime before_timestamp);
           ("page", VInt page); ("limit", VInt limit) ] ;;
     match messages with
     | [] => inl (HTTPException HTTP_404_NOT_FOUND
                    (Literal "No messages found before the given timestamp"))
     | _ :: _ =>
         construct "PaginatedMessageResponse" PaginatedMessageResponse
           [ ("messages", VMessages messages); ("page", VInt page);
             ("limit", VInt limit);
             ("total", VInt (Z.of_nat (List.length messages))) ]
     end).
End Schemas.

End MessageController.

(** ** Callers: chained scans, repeated resolution, repeated appends *)

Module Scenario.

(** The cursor a caller continues with: the minimum timestamp of the page. *)
Definition next_cursor (page : list message_dict) : option datetime :=
  min_key md_timestamp page.

(** Scanning a conversation page after page.  The first scan carries no
    cursor; every later one goes through [get_messages_before_timestamp]
    with the previous page's minimum timestamp.  The caller stops at the
    first page with fewer than [limit] items.  [clock i] is the clock
    reading of scan number [i]. *)
Fixpoint scan_from
    (fuel : nat) (s : Storage.Store) (clock : nat -> datetime) (i : nat)
    (c : UUID) (limit : Z) (cursor : option datetime)
  : list (list message_dict) :=
  match fuel with
  | O => []
  | S fuel' =>
      let page :=
        match cursor with
        | None =>
            MessageModel.get_conversation_messages s (clock i) c limit None
        | Some t =>
            MessageModel.get_messages_before_timestamp s (clock i) c t limit
        end in
      if Z.of_nat (List.length page) <? limit then [page]
      else match next_cursor page with
           | Some t => page :: scan_from fuel' s clock (S i) c limit (Some t)
           | None => [page]
           end
  end.

Definition scan_all
    (fuel : nat) (s : Storage.Store) (clock : nat -> datetime)
    (c : UUID) (limit : Z)
  : list (list message_dict) :=
  scan_from fuel s clock O c limit None.

(** Cutting a list into consecutive pieces of [n] items, up to and
    including the first piece with fewer than [n]. *)
Fixpoint chunks {A : Type} (fuel n : nat) (l : list A) : list (list A) :=
  match fuel with
  | O => []
  | S fuel' =>
      if (List.length l <? n)%nat then [l]
      else firstn n l :: chunks fuel' n (skipn n l)
  end.

(** What every reading of the probe has in common: an answer is a stored
    row of one of the two users, and there is an answer whenever one of them
    has a row. *)
Definition answers_with_a_stored_row
    (probe : Storage.Store -> UUID -> UUID -> list Storage.conversation_row)
  : Prop :=
  forall (s : Storage.Store) (a b : UUID),
    match probe s a b with
    | row :: _ =>
        In row (Storage.conversations_by_user s)
        /\ (Storage.user_id row = a \/ Storage.user_id row = b)
    | [] =>
        forall r, In r (Storage.conversations_by_user s) ->
                  Storage.user_id r <> a /\ Storage.user_id r <> b
    end.

(** One append to a conversation, with what the call would draw. *)
Record append_call := {
  ac_uuid4 : UUID;
  ac_utcnow : datetime;
  ac_sender_id : UUID;
  ac_content : string;
  ac_timestamp : option datetime
}.

(** The timestamp the message is stored under. *)
Definition stored_timestamp (call : append_call) : datetime :=
  match ac_timestamp call with
  | Some t => t
  | None => ac_utcnow call
  end.

(** The dictionary a scan shows for the appended message. *)
Definition appended (call : append_call) : message_dict :=
  {| md_message_id := ac_uuid4 call;
     md_sender_id := ac_sender_id call;
     md_content := ac_content call;
     md_timestamp := stored_timestamp call |}.

Definition append (s : Storage.Store) (c : UUID) (call : append_call)
  : Storage.Store :=
  fst (MessageModel.create_message
         s (ac_uuid4 call) (ac_utcnow call)
         (ac_sender_id call) c (ac_content call) (ac_timestamp call)).

Definition append_all (s : Storage.Store) (c : UUID) (calls : list append_call)
  : Storage.Store :=
  fold_left (fun s' call => append s' c call) calls s.

(** The row an append stores. *)
Definition stored_row (c : UUID) (call : append_call) : Storage.message_row :=
  {| Storage.message_id := ac_uuid4 call;
     Storage.msg_conversation_id := c;
     Storage.sender_id := ac_sender_id call;
     Storage.content := ac_content call;
     Storage.timestamp := stored_timestamp call |}.

(** An append that reads the clock for its timestamp. *)
Definition sent_at (utcnow : datetime) (uuid4 sender : UUID) (text : string)
  : append_call :=
  {| ac_uuid4 := uuid4; ac_utcnow := utcnow; ac_sender_id := sender;
     ac_content := text; ac_timestamp := None |}.

(** The store with one membership row. *)
Definition only_row (user : UUID) (ts : datetime) (c peer : UUID)
  : Storage.Store :=
  Storage.insert_conversation Storage.empty user ts c peer.

(** The store after users 1 and 2 have been resolved to conversation 100 at
    clock reading 5. *)
Definition paired : Storage.Store :=
  fst (ConversationModel.create_or_get_conversation Storage.empty 100 5 1 2).


(** Conversation 7 with four messages, stamped 10, 20, 30 and 40. *)
Definition four_messages : Storage.Store :=
  append_all Storage.empty 7
    [ sent_at 10 1 3 "a"; sent_at 20 2 4 "b";
      sent_at 30 5 3 "c"; sent_at 40 6 4 "d" ].


(** The two membership rows of the conversation [c] between [a] and [b]. *)
Definition membership_rows
    (s : Storage.Store) (c a b : UUID) (ts_a ts_b : datetime) : Prop :=
  In {| Storage.user_id := a; Storage.last_message_ts := ts_a;
        Storage.conversation_id := c; Storage.peer_id := b |}
     (Storage.conversations_by_user s)
  /\ In {| Storage.user_id := b; Storage.last_message_ts := ts_b;
           Storage.conversation_id := c; Storage.peer_id := a |}
        (Storage.conversations_by_user s).

End Scenario.

(** ** The routes: [app/api/routes/] *)

Module Routes.
Import Python.

(** The parameters the controller methods declare, [self] apart. *)
Definition get_user_conversations_parameters : list parameter :=
  [ required "user_id"; optional "page" (VInt 1); optional "limit" (VInt 20) ].

Definition get_conversation_parameters : list parameter :=
  [ required "conversation_id" ].

Definition get_conversation_messages_parameters : list parameter :=
  [ required "conversation_id"; optional "page" (VInt 1);
    optional "limit" (VInt 20) ].

Definition get_messages_before_timestamp_parameters : list parameter :=
  [ required "conversation_id"; required "before_timestamp";
    optional "page" (VInt 1); optional "limit" (VInt 20) ].

(** An optional query parameter, as the keyword value it is passed on as. *)
Definition optional_time (t : option datetime) : value :=
  match t with
  | Some t => VTime t
  | None => VNone
  end.

(** [GET /api/conversations/user/{user_id}]: the controller is called with
    the keywords [user_id], [limit] and [before_ts]. *)
Definition get_user_conversations
    (s : Storage.Store) (utcnow utcnow' : datetime)
    (user : UUID) (limit : Z) (before : option datetime)
  : result keywords :=
  let callee := "get_user_conversations" in
  b <- bind callee get_user_conversations_parameters
         [ ("user_id", VUuid user); ("limit", VInt limit);
           ("before_ts", optional_time before) ] ;;
  user_id <- get_uuid callee "user_id" b ;;
  page <- get_int callee "page" b ;;
  limit' <- get_int callee "limit" b ;;
  ConversationController.get_user_conversations
    s utcnow utcnow' user_id page limit'.

(** [GET /api/conversations/{conversation_id}]. *)
Definition get_conversation (s : Storage.Store) (c : UUID) : result keywords :=
  let callee := "get_conversation" in
  b <- bind callee get_conversation_parameters [ ("conversation_id", VUuid c) ] ;;
  conversation_id <- get_uuid callee "conversation_id" b ;;
  ConversationController.get_conversation s conversation_id.

Section Schemas.
Variables MessageResponse PaginatedMessageResponse : list parameter.

(** [POST /api/messages/]. *)
Definition send_message
    (s : Storage.Store) (uuid4 : UUID) (utcnow utcnow' : datetime)
    (message : MessageController.MessageCreate)
  : Storage.Store * result keywords :=
  MessageController.send_message s uuid4 utcnow utcnow' message.

(** [GET /api/messages/conversation/{conversation_id}]: the controller is
    called with the keywords [conversation_id], [limit] and [before_ts]. *)
Definition get_conversation_messages
    (s : Storage.Store) (utcnow : datetime)
    (c : UUID) (limit : Z) (before : option datetime)
  : result keywords :=
  let callee := "get_conversation_messages" in
  b <- bind callee get_conversation_messages_parameters
         [ ("conversation_id", VUuid c); ("limit", VInt limit);
           ("before_ts", optional_time before) ] ;;
  conversation_id <- get_uuid callee "conversation_id" b ;;
  page <- get_int callee "page" b ;;
  limit' <- get_int callee "limit" b ;;
  MessageController.get_conversation_messages
    PaginatedMessageResponse s utcnow conversation_id page limit'.

(** [GET /api/messages/conversation/{conversation_id}/before]. *)
Definition get_messages_before_timestamp
    (s : Storage.Store) (utcnow : datetime)
    (c : UUID) (before_timestamp : datetime) (limit : Z)
  : result keywords :=
  let callee := "get_messages_before_timestamp" in
  b <- bind callee get_messages_before_timestamp_parameters
         [ ("conversation_id", VUuid c);
           ("before_timestamp", VTime before_timestamp);
           ("limit", VInt limit) ] ;;
  conversation_id <- get_uuid callee "conversation_id" b ;;
  before <- get_time callee "before_timestamp" b ;;
  page <- get_int callee "page" b ;;
  limit' <- get_int callee "limit" b ;;
  MessageController.get_messages_before_timestamp
    PaginatedMessageResponse s utcnow conversation_id before page limit'.
End Schemas.

End Routes.

(** ** Bootstrap: [scripts/setup_db.py] *)

Module SetupDb.

(** [wait_for_cassandra()]: up to ten connection attempts, five seconds of
    sleep after each failed one.  [connects k] tells whether attempt number
    [k] (from 0) gets a session.  The result is the attempt that connected,
    or [None] when the function raises, with the seconds slept. *)
Fixpoint wait_loop
    (remaining attempt : nat) (connects : nat -> bool) (slept : Z)
  : option nat * Z :=
  match remaining with
  | O => (None, slept)
  | S remaining' =>
      if connects attempt then (Some attempt, slept)
      else wait_loop remaining' (S attempt) connects (slept + 5)
  end.

Definition wait_for_cassandra (connects : nat -> bool) : option nat * Z :=
  wait_loop 10 O connects 0.

(** A table of the keyspace: its name, its columns with their types, its
    partition key and its clustering column. *)
Record table := {
  t_name : string;
  t_columns : list (string * string);
  t_partition_key : string;
  t_clustering_desc : string
}.

(** [CREATE TABLE IF NOT EXISTS]: a table of that name already in the
    keyspace is left as it is. *)
Definition create_table_if_not_exists (t : table) (keyspace : list table)
  : list table :=
  if existsb (fun x => String.eqb (t_name x) (t_name t)) keyspace
  then keyspace
  else keyspace ++ [t].

Definition messages_by_conversation : table :=
  {| t_name := "messages_by_conversation";
     t_columns := [ ("conversation_id", "UUID"); ("message_ts", "TIMESTAMP");
                    ("sender_id", "UUID"); ("content", "TEXT") ];
     t_partition_key := "conversation_id";
     t_clustering_desc := "message_ts" |}.

Definition conversations_by_user : table :=
  {| t_name := "conversations_by_user";
     t_columns := [ ("user_id", "UUID"); ("last_message_ts", "TIMESTAMP");
                    ("conversation_id", "UUID"); ("peer_id", "UUID") ];
     t_partition_key := "user_id";
     t_clustering_desc := "last_message_ts" |}.

(** [create_tables(session)]. *)
Definition create_tables (keyspace : list table) : list table :=
  create_table_if_not_exists conversations_by_user
    (create_table_if_not_exists messages_by_conversation keyspace).

Definition has_table (name : string) (keyspace : list table) : bool :=
  existsb (fun x => String.eqb (t_name x) name) keyspace.

End SetupDb.

(** ** Test data: [scripts/generate_test_data.py] *)

Module TestData.

(** The script writes to the tables [scripts/setup_db.py] creates:
    [messages_by_conversation], keyed by [(conversation_id, message_ts)], and
    [conversations_by_user]. *)
Record log_row := {
  lr_conversation_id : UUID;
  lr_message_ts : datetime;
  lr_sender_id : UUID;
  lr_content : string
}.

Record Store := {
  messages_by_conversation : list log_row;
  conversations_by_user : list Storage.conversation_row
}.

Definition same_log_key (r x : log_row) : bool :=
  (lr_conversation_id r =? lr_conversation_id x)
  && (lr_message_ts r =? lr_message_ts x).

(** [INSERT INTO messages_by_conversation
     (conversation_id, message_ts, sender_id, content)]. *)
Definition insert_log_row
    (s : Store) (c : UUID) (ts : datetime) (sender : UUID) (text : string)
  : Store :=
  {| messages_by_conversation :=
       Storage.upsert same_log_key
         {| lr_conversation_id := c; lr_message_ts := ts;
            lr_sender_id := sender; lr_content := text |}
         (messages_by_conversation s);
     conversations_by_user := conversations_by_user s |}.

(** [INSERT INTO conversations_by_user
     (user_id, last_message_ts, conversation_id, peer_id)]. *)
Definition insert_membership
    (s : Store) (user : UUID) (ts : datetime) (c peer : UUID) : Store :=
  {| messages_by_conversation := messages_by_conversation s;
     conversations_by_user :=
       Storage.upsert Storage.same_conversation_key
         {| Storage.user_id := user; Storage.last_message_ts := ts;
            Storage.conversation_id := c; Storage.peer_id := peer |}
         (conversations_by_user s) |}.

(** What one turn of the outer loop draws: the two users sampled, the
    conversation id, the number of messages, the clock reading taken as
    [base_time], and the sender chosen for each message. *)
Record draw := {
  d_user_a : UUID;
  d_user_b : UUID;
  d_conversation_id : UUID;
  d_num_messages : nat;
  d_base_time : datetime;
  d_sender : nat -> UUID
}.

Section Generate.
(** The instants of the store in a second, and the text
    [f"Test message {i} from {sender}"]. *)
Variable second : Z.
Variable test_message : nat -> UUID -> string.

(** [base_time - timedelta(seconds=i * 60)]. *)
Definition msg_time (d : draw) (i : nat) : datetime :=
  d_base_time d - Z.of_nat i * 60 * second.

Definition log_row_of (d : draw) (i : nat) : log_row :=
  {| lr_conversation_id := d_conversation_id d;
     lr_message_ts := msg_time d i;
     lr_sender_id := d_sender d i;
     lr_content := test_message i (d_sender d i) |}.

(** [for i in range(num_messages)], from turn [i] on. *)
Fixpoint message_loop (d : draw) (i remaining : nat) (s : Store) : Store :=
  match remaining with
  | O => s
  | S remaining' =>
      message_loop d (S i) remaining'
        (insert_log_row s (d_conversation_id d) (msg_time d i)
           (d_sender d i) (test_message i (d_sender d i)))
  end.

(** One turn of [for _ in range(NUM_CONVERSATIONS)]. *)
Definition generate_conversation (s : Store) (d : draw) : Store :=
  let s1 := message_loop d O (d_num_messages d) s in
  let s2 := insert_membership s1 (d_user_a d) (d_base_time d)
              (d_conversation_id d) (d_user_b d) in
  insert_membership s2 (d_user_b d) (d_base_time d)
    (d_conversation_id d) (d_user_a d).

(** [generate_test_data(session)], for the draws of its turns. *)
Definition generate_test_data (s : Store) (draws : list draw) : Store :=
  fold_left generate_conversation draws s.
End Generate.

(** The rows of the message table a conversation holds. *)
Definition log_of (s : Store) (c : UUID) : list log_row :=
  filter (fun r => lr_conversation_id r =? c) (messages_by_conversation s).

Definition empty : Store :=
  {| messages_by_conversation := []; conversations_by_user := [] |}.

(** Two turns of the loop: conversation 100 of users 1 and 2 with twelve
    messages, conversation 101 of users 1 and 3 with ten. *)
Definition two_turns : list draw :=
  [ {| d_user_a := 1; d_user_b := 2; d_conversation_id := 100;
       d_num_messages := 12; d_base_time := 5000000;
       d_sender := fun i => if Nat.even i then 1 else 2 |};
    {| d_user_a := 1; d_user_b := 3; d_conversation_id := 101;
       d_num_messages := 10; d_base_time := 5000007;
       d_sender := fun _ => 3 |} ].

End TestData.

(** * Properties *)

(** ** The resolver *)

Section ResolverFacts.
Import Storage ConversationModel Scenario.

Lemma upsert_keeps_row {R : Type} (same_key : R -> R -> bool) (r : R) l :
  In r (upsert same_key r l).
Proof.
  induction l as [|x l IH]; simpl; [now left|].
  destruct (same_key r x); simpl; auto.
Qed.

Lemma upsert_rows {R : Type} (same_key : R -> R -> bool) (r x : R) l :
  In x (upsert same_key r l) -> x = r \/ In x l.
Proof.
  induction l as [|y l IH]; simpl.
  - intros [H|[]]; auto.
  - destruct (same_key r y); simpl; intros [H|H]; auto.
    destruct (IH H); auto.
Qed.

Lemma upsert_fresh {R : Type} (same_key : R -> R -> bool) (r : R) l :
  (forall x, In x l -> same_key r x = false) ->
  upsert same_key r l = l ++ [r].
Proof.
  induction l as [|y l IH]; simpl; intros H; [reflexivity|].
  rewrite (H y) by auto. f_equal. apply IH. auto.
Qed.

Lemma upsert_keeps_unless {R : Type} (same_key : R -> R -> bool) (r x : R) l :
  In x l -> same_key r x = false -> In x (Storage.upsert same_key r l).
Proof.
  induction l as [|y l IH]; simpl; intros Hin Hk; [destruct Hin|].
  destruct Hin as [->|Hin].
  - rewrite Hk. now left.
  - destruct (same_key r y); simpl; auto.
Qed.

Lemma probe_empty s a b :
  select_conversation_of_either s a b = [] ->
  forall r, In r (conversations_by_user s) ->
            (user_id r =? a) || (user_id r =? b) = false.
Proof.
  unfold select_conversation_of_either, limit_rows. intros H r Hr.
  destruct ((user_id r =? a) || (user_id r =? b)) eqn:E; [|reflexivity].
  assert (Hin : In r (filter (fun r => (user_id r =? a) || (user_id r =? b))
                             (conversations_by_user s)))
    by (apply filter_In; auto).
  destruct (filter _ _); [destruct Hin | discriminate H].
Qed.

(** Both readings of the probe answer with a stored row of one of the two
    users, and answer whenever there is one. *)
Lemma storage_order_probe_answers :
  answers_with_a_stored_row select_conversation_of_either.
Proof.
  intros s a b.
  destruct (select_conversation_of_either s a b) as [|row rest] eqn:E.
  - intros r Hr. pose proof (probe_empty s a b E r Hr) as H.
    apply orb_false_iff in H. destruct H as [Ha Hb].
    apply Z.eqb_neq in Ha, Hb. auto.
  - unfold select_conversation_of_either, limit_rows in E.
    assert (Hin : In row (filter (fun r => (user_id r =? a) || (user_id r =? b))
                                 (conversations_by_user s))).
    { destruct (filter _ _) as [|x l]; [discriminate E|].
      simpl in E. inversion E; subst. now left. }
    apply filter_In in Hin. destruct Hin as [Hin Hp].
    split; [exact Hin|]. apply orb_true_iff in Hp.
    destruct Hp as [Hp|Hp]; apply Z.eqb_eq in Hp; auto.
Qed.

Lemma listed_order_probe_answers :
  answers_with_a_stored_row select_conversation_of_listed.
Proof.
  intros s a b.
  destruct (select_conversation_of_listed s a b) as [|row rest] eqn:E;
    unfold select_conversation_of_listed, limit_rows in E.
  - assert (Hnil : filter (fun r => user_id r =? a) (conversations_by_user s)
                   ++ filter (fun r => user_id r =? b) (conversations_by_user s)
                   = []).
    { destruct (_ ++ _); [reflexivity|discriminate E]. }
    apply app_eq_nil in Hnil. destruct Hnil as [Ha Hb].
    intros r Hr. split; intros Hu.
    + assert (Hin : In r (filter (fun r => user_id r =? a)
                                 (conversations_by_user s)))
        by (apply filter_In; split; [exact Hr|now apply Z.eqb_eq]).
      rewrite Ha in Hin. destruct Hin.
    + assert (Hin : In r (filter (fun r => user_id r =? b)
                                 (conversations_by_user s)))
        by (apply filter_In; split; [exact Hr|now apply Z.eqb_eq]).
      rewrite Hb in Hin. destruct Hin.
  - assert (Hin : In row
                    (filter (fun r => user_id r =? a) (conversations_by_user s)
                     ++ filter (fun r => user_id r =? b)
                          (conversations_by_user s))).
    { destruct (_ ++ _) as [|x l]; [discriminate E|].
      simpl in E. inversion E; subst. now left. }
    apply in_app_or in Hin.
    destruct Hin as [Hin|Hin]; apply filter_In in Hin;
      destruct Hin as [Hin Hp]; apply Z.eqb_eq in Hp; auto.
Qed.

End ResolverFacts.


(** C7: the probe of the resolver is not restricted to rows of [user_a] whose
    peer is [user_b].  With one stored conversation 100 between users 1 and 3,
    resolving (1, 2) answers 100 and creates nothing; with one stored
    conversation 101 between users 2 and 4, resolving (1, 2) answers 101, a
    row of the partition of [user_b]; and when user 1 has conversation 100
    with user 3 and, less recent, conversation 102 with user 2, resolving
    (1, 2) still answers 100. *)
Theorem resolver_probe_ignores_peer :
  ConversationModel.create_or_get_conversation
    (Scenario.only_row 1 5 100 3) 200 9 1 2
  = (Scenario.only_row 1 5 100 3, 100)
  /\ ConversationModel.create_or_get_conversation
       (Scenario.only_row 2 5 101 4) 200 9 1 2
     = (Scenario.only_row 2 5 101 4, 101)
  /\ ConversationModel.create_or_get_conversation
       (Storage.insert_conversation (Scenario.only_row 1 5 100 3) 1 4 102 2)
       200 9 1 2
     = (Storage.insert_conversation (Scenario.only_row 1 5 100 3) 1 4 102 2,
        100).
Proof. repeat split; reflexivity. Qed.

(** ** Errors at the controllers *)

Lemma filter_none {A : Type} (p : A -> bool) (l : list A) :
  (forall x, In x l -> p x = false) -> filter p l = [].
Proof.
  induction l as [|x l IH]; simpl; intros H; [reflexivity|].
  rewrite (H x) by auto. apply IH. auto.
Qed.

Lemma get_conversation_absent (s : Storage.Store) (c : UUID) :
  ConversationModel.get_conversation s c = None ->
  ConversationController.get_conversation s c
  = inl (Python.HTTPException Python.HTTP_500_INTERNAL_SERVER_ERROR
           (Python.Formatted
              "An error occurred while retrieving the conversation: "
              (Python.HTTPException Python.HTTP_404_NOT_FOUND
                 (Python.Literal "Conversation not found")))).
Proof.
  intros H. unfold ConversationController.get_conversation. now rewrite H.
Qed.

(** C8: looking up a conversation that is not stored does not end with the
    not-found error: on the empty store [get_conversation] raises an
    [HTTPException] whose status is 500, the 404 it raised first being
    caught by its own handler and kept only inside the detail text. *)
Theorem get_conversation_absent_reports_500 :
  ConversationModel.get_conversation Storage.empty 7 = None
  /\ ConversationController.get_conversation Storage.empty 7
     = inl (Python.HTTPException 500
              (Python.Formatted
                 "An error occurred while retrieving the conversation: "
                 (Python.HTTPException 404
                    (Python.Literal "Conversation not found")))).
Proof. split; reflexivity. Qed.

Lemma get_user_conversations_empty_page
    (s : Storage.Store) (utcnow utcnow' : datetime) (user : UUID) (page limit : Z) :
  ConversationModel.get_user_conversations s utcnow' user limit (Some utcnow) = [] ->
  ConversationController.get_user_conversations s utcnow utcnow' user page limit
  = inl (Python.HTTPException Python.HTTP_500_INTERNAL_SERVER_ERROR
           (Python.Formatted
              "An error occurred while retrieving conversations: "
              (Python.HTTPException Python.HTTP_404_NOT_FOUND
                 (Python.Literal "No conversations found for this user")))).
Proof.
  intros H. unfold ConversationController.get_user_conversations.
  now rewrite H.
Qed.

Lemma get_conversation_messages_refused
    (PaginatedMessageResponse : list Python.parameter)
    (s : Storage.Store) (utcnow : datetime) (c : UUID) (page limit : Z) :
  MessageController.get_conversation_messages
    PaginatedMessageResponse s utcnow c page limit
  = inl (Python.HTTPException Python.HTTP_500_INTERNAL_SERVER_ERROR
           (Python.Formatted "An error occurred while retrieving messages: "
              (Python.UnexpectedKeyword "get_conversation_messages" "page"))).
Proof. reflexivity. Qed.

(** C3, as the claim states it, fails: for a user without conversations the
    scan of the model is empty, and the controller answers with an
    [HTTPException] instead of a page. *)
Lemma empty_scan_is_reported_as_error :
  ConversationModel.get_user_conversations Storage.empty 50 1 20 (Some 50) = []
  /\ ~ (exists page,
          ConversationController.get_user_conversations
            Storage.empty 50 50 1 1 20 = inr page).
Proof.
  split; [reflexivity|]. intros [page H].
  rewrite get_user_conversations_empty_page in H by reflexivity.
  discriminate H.
Qed.

(** C3, amended: when no membership row of the user lies before the bound,
    and when no message of the conversation does, the scans of the models
    return the empty list; the controllers do not turn it into a page, they
    end with an [HTTPException]. *)
Theorem empty_scan_at_models_and_controllers :
  forall (PaginatedMessageResponse : list Python.parameter)
         (s : Storage.Store) (utcnow utcnow' : datetime)
         (user c : UUID) (page limit : Z),
    (forall r, In r (Storage.conversations_by_user s) ->
               Storage.user_id r = user ->
               utcnow <= Storage.last_message_ts r) ->
    (forall m, In m (Storage.messages_of s c) ->
               utcnow <= Storage.timestamp m) ->
    (ConversationModel.get_user_conversations s utcnow' user limit (Some utcnow)
     = []
     /\ exists code detail,
         ConversationController.get_user_conversations
           s utcnow utcnow' user page limit
         = inl (Python.HTTPException code detail))
    /\ (MessageModel.get_conversation_messages s utcnow c limit None = []
        /\ exists code detail,
            MessageController.get_conversation_messages
              PaginatedMessageResponse s utcnow c page limit
            = inl (Python.HTTPException code detail)).
Proof.
  intros PMR s utcnow utcnow' user c page limit Hconv Hmsg.
  assert (E1 : ConversationModel.get_user_conversations
                 s utcnow' user limit (Some utcnow) = []).
  { unfold ConversationModel.get_user_conversations,
      Storage.select_user_conversations, Storage.limit_rows.
    replace (filter _ (Storage.conversations_by_user s)) with
      (@nil Storage.conversation_row); [now rewrite firstn_nil|].
    symmetry. apply filter_none. intros r Hr.
    destruct (Storage.user_id r =? user) eqn:E; [|reflexivity].
    apply Z.eqb_eq in E. specialize (Hconv r Hr E). simpl.
    apply Z.ltb_ge. exact Hconv. }
  split; split.
  - exact E1.
  - rewrite get_user_conversations_empty_page by exact E1. eauto.
  - unfold MessageModel.get_conversation_messages,
      Storage.select_messages, Storage.limit_rows.
    replace (filter _ (Storage.messages s)) with (@nil Storage.message_row);
      [now rewrite firstn_nil|].
    symmetry. apply filter_none. intros m Hm.
    destruct (Storage.msg_conversation_id m =? c) eqn:E; [|reflexivity].
    simpl. apply Z.ltb_ge. apply Hmsg.
    unfold Storage.messages_of. apply filter_In. auto.
  - rewrite get_conversation_messages_refused. eauto.
Qed.

(** C10: whatever the store, the drawn identifier, the clock readings and the
    request, [send_message] ends with an [HTTPException] of status 500 and
    leaves the store as it was: [create_message] refuses the keyword
    [receiver_id] before it writes anything, and the handler of the
    controller turns that refusal into the internal server error. *)
Theorem send_message_always_fails :
  forall (s : Storage.Store) (uuid4 : UUID) (utcnow utcnow' : datetime)
         (message_data : MessageController.MessageCreate),
    MessageController.send_message s uuid4 utcnow utcnow' message_data
    = (s, inl (Python.HTTPException 500
                 (Python.Formatted
                    "An error occurred while sending the message: "
                    (Python.UnexpectedKeyword "create_message" "receiver_id"))))
    /\ Python.declares MessageController.create_message_parameters "receiver_id"
       = false
    /\ ~ In "get_message_by_id" MessageController.MessageModel_attributes.
Proof.
  intros s uuid4 utcnow utcnow' message_data. split; [reflexivity|].
  split; [reflexivity|].
  simpl. intros [H|[H|[H|[]]]]; discriminate H.
Qed.

(** ** The scans *)

(** C9: for every store, conversation, bound and limit,
    [get_messages_before_timestamp] returns what [get_conversation_messages]
    returns for the same conversation, limit and bound, whatever the clock
    shows at either call. *)
Theorem get_messages_before_timestamp_delegates :
  forall (s : Storage.Store) (utcnow utcnow' : datetime)
         (c : UUID) (before_timestamp : datetime) (limit : Z),
    MessageModel.get_messages_before_timestamp
      s utcnow c before_timestamp limit
    = MessageModel.get_conversation_messages
        s utcnow' c limit (Some before_timestamp).
Proof.
  intros s utcnow utcnow' c before_timestamp limit.
  unfold MessageModel.get_messages_before_timestamp.
  unfold MessageModel.get_conversation_messages.
  reflexivity.
Qed.

Section OrderByFacts.
Context {A : Type} (key : A -> Z).

Lemma insert_desc_permutation x l :
  Permutation (insert_desc key x l) (x :: l).
Proof.
  induction l as [|y l IH]; simpl; [reflexivity|].
  destruct (key y <? key x); [reflexivity|].
  rewrite IH. apply perm_swap.
Qed.

Lemma order_by_desc_permutation l :
  Permutation (order_by_desc key l) l.
Proof.
  induction l as [|x l IH]; simpl; [reflexivity|].
  rewrite insert_desc_permutation. now constructor.
Qed.

Lemma order_by_desc_length l :
  List.length (order_by_desc key l) = List.length l.
Proof. apply Permutation_length, order_by_desc_permutation. Qed.

Lemma insert_desc_descending x l :
  descending key l -> descending key (insert_desc key x l).
Proof.
  unfold descending. induction l as [|y l IH]; simpl; intros H.
  - repeat constructor.
  - inversion H as [|? ? Hl Hy]; subst.
    destruct (key y <? key x) eqn:E.
    + apply Z.ltb_lt in E. constructor; [exact H|].
      constructor; [lia|].
      eapply Forall_impl; [|exact Hy]. simpl. intros; lia.
    + apply Z.ltb_ge in E. constructor; [now apply IH|].
      apply Forall_forall. intros z Hz.
      apply (Permutation_in _ (insert_desc_permutation x l)) in Hz.
      destruct Hz as [<-|Hz]; [exact E|].
      rewrite Forall_forall in Hy. now apply Hy.
Qed.

Lemma order_by_desc_descending l : descending key (order_by_desc key l).
Proof.
  induction l as [|x l IH]; simpl; [constructor|].
  now apply insert_desc_descending.
Qed.

Lemma descending_distinct_keys l :
  descending key l -> NoDup (map key l) -> strictly_descending key l.
Proof.
  unfold descending, strictly_descending.
  induction l as [|x l IH]; simpl; intros Hs Hn; [constructor|].
  inversion Hs as [|? ? Hl Hx]; subst. inversion Hn as [|? ? Hnot Hn']; subst.
  constructor; [now apply IH|].
  rewrite Forall_forall in *. intros y Hy.
  specialize (Hx y Hy).
  assert (key y <> key x).
  { intros E. apply Hnot. rewrite <- E. now apply in_map. }
  lia.
Qed.

Lemma order_by_desc_strictly_descending l :
  NoDup (map key l) -> strictly_descending key (order_by_desc key l).
Proof.
  intros H. apply descending_distinct_keys; [apply order_by_desc_descending|].
  eapply Permutation_NoDup; [|exact H].
  apply Permutation_map. symmetry. apply order_by_desc_permutation.
Qed.

Lemma insert_desc_above x l :
  Forall (fun y => key y < key x) l -> insert_desc key x l = x :: l.
Proof.
  destruct l as [|y l]; simpl; [reflexivity|].
  intros H. inversion H; subst.
  now replace (key y <? key x) with true by (symmetry; now apply Z.ltb_lt).
Qed.

Lemma filter_insert_desc (p : A -> bool) x l :
  descending key l ->
  filter p (insert_desc key x l)
  = if p x then insert_desc key x (filter p l) else filter p l.
Proof.
  unfold descending. induction l as [|y l IH]; simpl; intros H.
  - now destruct (p x).
  - inversion H as [|? ? Hl Hy]; subst.
    destruct (key y <? key x) eqn:E; simpl.
    + destruct (p x); [|reflexivity].
      symmetry. apply insert_desc_above.
      apply Z.ltb_lt in E.
      assert (Hall : Forall (fun z => key z < key x) (y :: l)).
      { constructor; [exact E|].
        eapply Forall_impl; [|exact Hy]. simpl. intros; lia. }
      rewrite Forall_forall in *. intros z Hz.
      apply Hall. change (In z (filter p (y :: l))) in Hz.
      apply filter_In in Hz. tauto.
    + rewrite (IH Hl). destruct (p y), (p x); simpl; try reflexivity.
      now rewrite E.
Qed.

Lemma order_by_desc_filter (p : A -> bool) l :
  order_by_desc key (filter p l) = filter p (order_by_desc key l).
Proof.
  induction l as [|x l IH]; simpl; [reflexivity|].
  rewrite filter_insert_desc by apply order_by_desc_descending.
  destruct (p x); simpl; now rewrite IH.
Qed.

Lemma StronglySorted_firstn (R : A -> A -> Prop) n l :
  StronglySorted R l -> StronglySorted R (firstn n l).
Proof.
  revert l. induction n as [|n IH]; intros [|x l] H; simpl; try constructor.
  - inversion H; subst. now apply IH.
  - inversion H as [|? ? Hl Hx]; subst.
    rewrite Forall_forall in *. intros y Hy. apply Hx.
    rewrite <- (firstn_skipn n l). apply in_or_app. now left.
Qed.

Lemma Forall_firstn (P : A -> Prop) n l :
  Forall P l -> Forall P (firstn n l).
Proof.
  rewrite !Forall_forall. intros H x Hx. apply H.
  rewrite <- (firstn_skipn n l). apply in_or_app. now left.
Qed.

Lemma strictly_descending_NoDup l :
  strictly_descending key l -> NoDup l.
Proof.
  unfold strictly_descending. induction 1 as [|x l Hl IH Hx]; constructor; [|exact IH].
  intros Hin. rewrite Forall_forall in Hx. specialize (Hx x Hin). lia.
Qed.
End OrderByFacts.

Lemma StronglySorted_map {A B : Type} (f : B -> A) (R : A -> A -> Prop) l :
  StronglySorted (fun x y => R (f x) (f y)) l -> StronglySorted R (map f l).
Proof.
  induction 1 as [|x l Hl IH Hx]; simpl; constructor; [exact IH|].
  rewrite Forall_forall in *. intros y Hy.
  apply in_map_iff in Hy. destruct Hy as (z & <- & Hz). now apply Hx.
Qed.

Lemma filter_both {A : Type} (p q : A -> bool) l :
  filter (fun x => p x && q x) l = filter q (filter p l).
Proof.
  induction l as [|x l IH]; simpl; [reflexivity|].
  destruct (p x); simpl; [|exact IH].
  destruct (q x); now rewrite IH.
Qed.

Section ScanFacts.
Context {R : Type} (key : R -> Z).

(** What a bounded, ordered, limited read returns. *)
Lemma bounded_read (p : R -> bool) (before limit : Z) (table : list R) :
  0 <= limit ->
  let page :=
    Storage.limit_rows limit
      (order_by_desc key (filter (fun r => p r && (key r <? before)) table)) in
  Z.of_nat (List.length page) <= limit
  /\ Forall (fun r => key r < before) page
  /\ descending key page.
Proof.
  intros Hl page. unfold page, Storage.limit_rows. repeat split.
  - pose proof (firstn_le_length (Z.to_nat limit)
                  (order_by_desc key
                     (filter (fun r => p r && (key r <? before)) table))).
    lia.
  - apply Forall_firstn. apply Forall_forall. intros r Hr.
    apply (Permutation_in _ (order_by_desc_permutation key _)) in Hr.
    apply filter_In in Hr. destruct Hr as [_ Hr].
    apply andb_true_iff in Hr. now apply Z.ltb_lt.
  - apply StronglySorted_firstn, order_by_desc_descending.
Qed.
End ScanFacts.

(** C5: a scan of a user's conversations and a scan of a conversation's
    messages, each with an explicit cursor and a limit that is not negative,
    return at most [limit] items, every one with a timestamp strictly below
    the cursor (so none equal to it), in descending order of timestamp. *)
Theorem scan_with_cursor_is_exclusive_and_bounded :
  forall (s : Storage.Store) (utcnow : datetime) (user c : UUID)
         (limit : Z) (cursor : datetime),
    0 <= limit ->
    let conversations :=
      ConversationModel.get_user_conversations s utcnow user limit (Some cursor) in
    let messages :=
      MessageModel.get_conversation_messages s utcnow c limit (Some cursor) in
    (Z.of_nat (List.length conversations) <= limit
     /\ Forall (fun d => cd_last_message_ts d < cursor) conversations
     /\ descending cd_last_message_ts conversations)
    /\ (Z.of_nat (List.length messages) <= limit
        /\ Forall (fun d => md_timestamp d < cursor) messages
        /\ descending md_timestamp messages).
Proof.
  intros s utcnow user c limit cursor Hl. simpl.
  unfold ConversationModel.get_user_conversations,
    MessageModel.get_conversation_messages.
  split.
  - destruct (bounded_read Storage.last_message_ts
                (fun r => Storage.user_id r =? user) cursor limit
                (Storage.conversations_by_user s) Hl) as (H1 & H2 & H3).
    unfold Storage.select_user_conversations.
    rewrite length_map. repeat split.
    + exact H1.
    + apply Forall_map. exact H2.
    + apply StronglySorted_map. exact H3.
  - destruct (bounded_read Storage.timestamp
                (fun r => Storage.msg_conversation_id r =? c) cursor limit
                (Storage.messages s) Hl) as (H1 & H2 & H3).
    unfold Storage.select_messages.
    rewrite length_map. repeat split.
    + exact H1.
    + apply Forall_map. exact H2.
    + apply StronglySorted_map. exact H3.
Qed.

Lemma scan_with_cursor_witness :
  0 <= 2
  /\ Forall (fun d => md_timestamp d < 30)
       (MessageModel.get_conversation_messages
          Scenario.four_messages 99 7 2 (Some 30)).
Proof.
  split; [lia|].
  apply (scan_with_cursor_is_exclusive_and_bounded
           Scenario.four_messages 99 0 7 2 30).
  lia.
Defined.

(** ** Appending *)

Section RestampFacts.
Import Storage MessageModel.





End RestampFacts.


Section AppendFacts.
Import Storage Scenario.

Lemma filter_all {A : Type} (p : A -> bool) (l : list A) :
  (forall x, In x l -> p x = true) -> filter p l = l.
Proof.
  induction l as [|x l IH]; simpl; intros H; [reflexivity|].
  rewrite (H x) by auto. f_equal. apply IH. auto.
Qed.

Lemma messages_of_append_fresh s c call :
  (forall m, In m (messages_of s c) -> timestamp m <> stored_timestamp call) ->
  messages_of (append s c call) c = messages_of s c ++ [stored_row c call].
Proof.
  intros Hfresh. unfold append, MessageModel.create_message, messages_of.
  simpl. fold (stored_timestamp call). fold (stored_row c call).
  rewrite upsert_fresh.
  - rewrite filter_app. simpl. now rewrite Z.eqb_refl.
  - intros x Hx. unfold same_message_key. simpl.
    destruct (c =? msg_conversation_id x) eqn:E; [|reflexivity].
    apply Z.eqb_eq in E. simpl. apply Z.eqb_neq.
    intros Heq. apply (Hfresh x); [|now symmetry].
    unfold messages_of. apply filter_In. split; [exact Hx|].
    apply Z.eqb_eq. now symmetry.
Qed.

Lemma messages_of_append_all c calls :
  forall s,
    NoDup (map timestamp (messages_of s c) ++ map stored_timestamp calls) ->
    messages_of (append_all s c calls) c
    = messages_of s c ++ map (stored_row c) calls.
Proof.
  induction calls as [|call calls IH]; intros s Hn; simpl.
  - now rewrite app_nil_r.
  - assert (Hstep : messages_of (append s c call) c
                    = messages_of s c ++ [stored_row c call]).
    { apply messages_of_append_fresh. intros m Hm Heq.
      simpl in Hn. apply NoDup_remove_2 in Hn. apply Hn.
      apply in_or_app. left. rewrite <- Heq. now apply in_map. }
    unfold append_all in *. simpl. rewrite IH.
    + rewrite Hstep, <- app_assoc. reflexivity.
    + rewrite Hstep, map_app, <- app_assoc. exact Hn.
Qed.

Lemma select_messages_sorted s c before limit :
  select_messages s c before limit
  = firstn (Z.to_nat limit)
      (filter (fun r => timestamp r <? before)
              (order_by_desc timestamp (messages_of s c))).
Proof.
  unfold select_messages, limit_rows, messages_of.
  now rewrite filter_both, order_by_desc_filter.
Qed.
End AppendFacts.

(** C6, as the claim states it, fails: of two messages appended to a
    conversation at the same clock reading, the scan with [limit = 2] returns
    only the second; and a message stored under a timestamp that is not
    before the clock reading of the scan is not returned. *)
Lemma append_with_equal_timestamps_loses_message :
  MessageModel.get_conversation_messages
    (Scenario.append_all Storage.empty 7
       [ Scenario.sent_at 10 1 3 "hello"; Scenario.sent_at 10 2 4 "hi" ])
    99 7 2 None
  = [ Scenario.appended (Scenario.sent_at 10 2 4 "hi") ]
  /\ MessageModel.get_conversation_messages
       (Scenario.append_all Storage.empty 7 [ Scenario.sent_at 10 1 3 "hello" ])
       10 7 1 None
     = [].
Proof. split; reflexivity. Qed.

(** C6, amended: for a conversation that holds no message, after appending
    [k] messages whose stored timestamps are pairwise distinct and all before
    the clock reading of the scan, the scan with [limit = k] and no cursor
    returns exactly those [k] messages, each once, in strictly descending
    order of timestamp. *)
Theorem scan_after_appends_returns_all :
  forall (s : Storage.Store) (c : UUID) (calls : list Scenario.append_call)
         (utcnow : datetime),
    Storage.messages_of s c = [] ->
    NoDup (map Scenario.stored_timestamp calls) ->
    Forall (fun call => Scenario.stored_timestamp call < utcnow) calls ->
    let page :=
      MessageModel.get_conversation_messages
        (Scenario.append_all s c calls) utcnow c
        (Z.of_nat (List.length calls)) None in
    Permutation page (map Scenario.appended calls)
    /\ NoDup page
    /\ strictly_descending md_timestamp page.
Proof.
  intros s c calls utcnow Hempty Hn Hbefore page.
  assert (Hrows : Storage.messages_of (Scenario.append_all s c calls) c
                  = map (Scenario.stored_row c) calls).
  { rewrite messages_of_append_all; rewrite Hempty; [reflexivity|exact Hn]. }
  assert (Hkeys : map Storage.timestamp (map (Scenario.stored_row c) calls)
                  = map Scenario.stored_timestamp calls)
    by (rewrite map_map; reflexivity).
  assert (Hpage : page
                  = map MessageModel.to_dict
                      (order_by_desc Storage.timestamp
                         (map (Scenario.stored_row c) calls))).
  { unfold page, MessageModel.get_conversation_messages.
    rewrite select_messages_sorted, Hrows, Nat2Z.id. f_equal.
    rewrite filter_all.
    - apply firstn_all2.
      rewrite order_by_desc_length, length_map. apply Nat.le_refl.
    - intros r Hr.
      apply (Permutation_in _ (order_by_desc_permutation _ _)) in Hr.
      apply in_map_iff in Hr. destruct Hr as (call & <- & Hcall).
      rewrite Forall_forall in Hbefore. apply Z.ltb_lt. simpl.
      now apply Hbefore. }
  assert (Hstrict : strictly_descending md_timestamp page).
  { rewrite Hpage. apply StronglySorted_map.
    apply (order_by_desc_strictly_descending Storage.timestamp).
    rewrite <- Hkeys in Hn. exact Hn. }
  split; [|split].
  - rewrite Hpage.
    replace (map Scenario.appended calls)
      with (map MessageModel.to_dict (map (Scenario.stored_row c) calls))
      by (rewrite map_map; reflexivity).
    apply Permutation_map, order_by_desc_permutation.
  - exact (strictly_descending_NoDup md_timestamp page Hstrict).
  - exact Hstrict.
Qed.

(** ** Chained scans *)

Section ChunkFacts.
Context {A : Type}.
Import Scenario.

Lemma div_mod_step (n len : nat) :
  (0 < n)%nat -> (n <= len)%nat ->
  (len / n = S ((len - n) / n))%nat /\ (len mod n = (len - n) mod n)%nat.
Proof.
  intros Hn Hlen.
  replace len with ((len - n) + 1 * n)%nat at 1 3 by lia.
  rewrite Nat.div_add by lia. rewrite Nat.Div0.mod_add. lia.
Qed.

Lemma chunks_nonempty (fuel n : nat) (l : list A) :
  (0 < fuel)%nat -> chunks fuel n l <> [].
Proof.
  destruct fuel as [|fuel]; [lia|]. intros _. simpl.
  destruct (List.length l <? n)%nat; discriminate.
Qed.

Lemma chunks_spec (n : nat) :
  (0 < n)%nat ->
  forall (fuel : nat) (l : list A),
    (List.length l / n < fuel)%nat ->
    List.concat (chunks fuel n l) = l
    /\ List.length (chunks fuel n l) = S (List.length l / n)
    /\ Forall (fun p => List.length p = n) (removelast (chunks fuel n l))
    /\ List.length (last (chunks fuel n l) []) = (List.length l mod n)%nat.
Proof.
  intros Hn. induction fuel as [|fuel IH]; intros l Hfuel; [lia|].
  simpl. destruct (List.length l <? n)%nat eqn:E.
  - apply Nat.ltb_lt in E. simpl. rewrite app_nil_r.
    rewrite Nat.div_small, Nat.mod_small by exact E. auto.
  - apply Nat.ltb_ge in E.
    destruct (div_mod_step n (List.length l) Hn E) as [Hdiv Hmod].
    assert (Hlen : List.length (skipn n l) = (List.length l - n)%nat)
      by apply length_skipn.
    destruct (IH (skipn n l)) as (Hc & Hl & Hf & Hlast);
      [rewrite Hlen; lia|].
    assert (Hne : chunks fuel n (skipn n l) <> [])
      by (apply chunks_nonempty; lia).
    destruct (chunks fuel n (skipn n l)) as [|p ps] eqn:Eps; [contradiction|].
    repeat split.
    + simpl List.concat. simpl in Hc. rewrite Hc. apply firstn_skipn.
    + simpl List.length in *. rewrite Hl, Hlen, Hdiv. reflexivity.
    + change (Forall (fun q => List.length q = n)
                (firstn n l :: removelast (p :: ps))).
      constructor; [|exact Hf].
      rewrite length_firstn. lia.
    + change (List.length (last (p :: ps) []) = (List.length l mod n)%nat).
      rewrite Hlast, Hlen, Hmod. reflexivity.
Qed.
End ChunkFacts.

Section MinKeyFacts.
Context {A : Type} (key : A -> Z).

Lemma min_key_spec (l : list A) :
  l <> [] ->
  exists m, min_key key l = Some m
            /\ Forall (fun x => m <= key x) l
            /\ exists x, In x l /\ key x = m.
Proof.
  induction l as [|x l IH]; [contradiction|]. intros _. simpl.
  destruct l as [|y l'].
  - simpl. exists (key x). repeat split.
    + constructor; [lia|constructor].
    + exists x. auto.
  - destruct IH as (m & Hm & Hall & z & Hz & Hkz); [discriminate|].
    rewrite Hm. exists (Z.min (key x) m). repeat split.
    + constructor; [lia|].
      eapply Forall_impl; [|exact Hall]. simpl. intros; lia.
    + destruct (Z.le_gt_cases (key x) m).
      * exists x. split; [now left|lia].
      * exists z. split; [now right|lia].
Qed.

Lemma min_key_map {B : Type} (f : B -> A) (l : list B) :
  min_key key (map f l) = min_key (fun b => key (f b)) l.
Proof.
  induction l as [|x l IH]; simpl; [reflexivity|]. now rewrite IH.
Qed.

Lemma StronglySorted_app_inv (R : A -> A -> Prop) (l1 l2 : list A) :
  StronglySorted R (l1 ++ l2) ->
  forall x y, In x l1 -> In y l2 -> R x y.
Proof.
  induction l1 as [|z l1 IH]; simpl; intros H x y Hx Hy; [destruct Hx|].
  inversion H as [|? ? Hs Hz]; subst.
  destruct Hx as [<-|Hx].
  - rewrite Forall_forall in Hz. apply Hz, in_or_app. now right.
  - now apply IH.
Qed.

Lemma filter_below (m : Z) (l1 l2 : list A) :
  Forall (fun x => m <= key x) l1 ->
  Forall (fun x => key x < m) l2 ->
  filter (fun x => key x <? m) (l1 ++ l2) = l2.
Proof.
  rewrite !Forall_forall. intros H1 H2. rewrite filter_app.
  rewrite filter_none, filter_all; [reflexivity| |].
  - intros x Hx. apply Z.ltb_lt. now apply H2.
  - intros x Hx. apply Z.ltb_ge. now apply H1.
Qed.
End MinKeyFacts.

Section ChainedScan.
Import Storage Scenario.
Variables (s : Store) (clock : nat -> datetime) (c : UUID) (limit : Z).
Hypothesis limit_positive : 0 < limit.

Let stored := order_by_desc timestamp (messages_of s c).

Hypothesis stored_strict : strictly_descending timestamp stored.

Lemma next_cursor_of_rows (rows : list message_row) :
  next_cursor (map MessageModel.to_dict rows) = min_key timestamp rows.
Proof. unfold next_cursor. now rewrite min_key_map. Qed.

Lemma scan_from_chunks :
  forall (fuel i : nat) (cursor : option datetime) (seen rest : list message_row),
    stored = seen ++ rest ->
    Forall (fun r => match cursor with Some t => t | None => clock i end
                     <= timestamp r) seen ->
    Forall (fun r => timestamp r
                     < match cursor with Some t => t | None => clock i end) rest ->
    scan_from fuel s clock i c limit cursor
    = map (map MessageModel.to_dict) (chunks fuel (Z.to_nat limit) rest).
Proof.
  induction fuel as [|fuel IH]; intros i cursor seen rest Hsplit Hseen Hrest;
    [reflexivity|].
  set (n := Z.to_nat limit).
  assert (Hpage :
            match cursor with
            | None => MessageModel.get_conversation_messages s (clock i) c limit None
            | Some t =>
                MessageModel.get_messages_before_timestamp s (clock i) c t limit
            end = map MessageModel.to_dict (firstn n rest)).
  { destruct cursor as [t|];
      unfold MessageModel.get_messages_before_timestamp,
        MessageModel.get_conversation_messages;
      rewrite select_messages_sorted; fold stored;
      rewrite Hsplit, (filter_below timestamp) by assumption; reflexivity. }
  simpl scan_from. rewrite Hpage. simpl chunks. fold n.
  rewrite length_map, length_firstn.
  destruct (List.length rest <? n)%nat eqn:E.
  - apply Nat.ltb_lt in E.
    replace (Z.of_nat (Nat.min n (List.length rest)) <? limit) with true
      by (symmetry; apply Z.ltb_lt; unfold n in *; lia).
    rewrite firstn_all2 by lia. reflexivity.
  - apply Nat.ltb_ge in E.
    replace (Z.of_nat (Nat.min n (List.length rest)) <? limit) with false
      by (symmetry; apply Z.ltb_ge; unfold n in *; lia).
    rewrite next_cursor_of_rows.
    assert (Hne : firstn n rest <> []).
    { intros Hnil. apply (f_equal (@List.length _)) in Hnil.
      rewrite length_firstn in Hnil. simpl in Hnil. unfold n in *. lia. }
    destruct (min_key_spec timestamp (firstn n rest) Hne)
      as (m & Hm & Hall & x & Hx & Hkx).
    rewrite Hm. simpl map. f_equal.
    assert (Hxrest : In x rest).
    { rewrite <- (firstn_skipn n rest). apply in_or_app. now left. }
    apply (IH (S i) (Some m) (seen ++ firstn n rest) (skipn n rest)).
    + now rewrite <- app_assoc, firstn_skipn.
    + apply Forall_app. split; [|exact Hall].
      rewrite Forall_forall in Hseen, Hrest |- *. intros y Hy.
      specialize (Hseen y Hy). specialize (Hrest x Hxrest). lia.
    + apply Forall_forall. intros y Hy. rewrite <- Hkx.
      apply (StronglySorted_app_inv
               (fun a b => timestamp b < timestamp a)
               (seen ++ firstn n rest) (skipn n rest)).
      * rewrite <- app_assoc, firstn_skipn, <- Hsplit. exact stored_strict.
      * apply in_or_app. now right.
      * exact Hy.
Qed.
End ChainedScan.

Lemma removelast_map {A B : Type} (f : A -> B) (l : list A) :
  removelast (map f l) = map f (removelast l).
Proof.
  induction l as [|x l IH]; simpl; [reflexivity|].
  destruct l as [|y l]; simpl in *; [reflexivity|]. now rewrite IH.
Qed.

Lemma last_map {A B : Type} (f : A -> B) (l : list A) (d : A) :
  last (map f l) (f d) = f (last l d).
Proof.
  induction l as [|x l IH]; simpl; [reflexivity|].
  destruct l as [|y l]; simpl in *; [reflexivity|]. exact IH.
Qed.

Lemma pages_to_ceiling (N L : nat) :
  (0 < L)%nat ->
  ((N + L - 1) / L + (if (N mod L =? 0)%nat then 1 else 0) = S (N / L))%nat.
Proof.
  intros HL.
  pose proof (Nat.div_mod_eq N L) as Hdm.
  pose proof (Nat.mod_upper_bound N L ltac:(lia)) as Hr.
  set (q := (N / L)%nat) in *. set (r := (N mod L)%nat) in *.
  destruct (r =? 0)%nat eqn:E.
  - apply Nat.eqb_eq in E.
    rewrite <- (Nat.div_unique (N + L - 1) L q (L - 1)); lia.
  - apply Nat.eqb_neq in E.
    rewrite <- (Nat.div_unique (N + L - 1) L (S q) (r - 1)); lia.
Qed.

Lemma four_messages_by_timestamp :
  map Storage.timestamp (Storage.messages_of Scenario.four_messages 7)
  = [10; 20; 30; 40].
Proof. reflexivity. Qed.

(** C2, as the claim states it, fails when the page size divides the number
    of messages: with four messages and pages of two, the second of the
    ceil(4/2) = 2 pages is full, and the page with fewer than two items is a
    third, empty one.  It also fails for a message stamped at or after the
    clock reading of the first scan, which no page returns. *)
Lemma full_last_page_when_limit_divides :
  map (map md_timestamp)
    (Scenario.scan_all 5 Scenario.four_messages (fun _ => 100) 7 2)
  = [ [40; 30]; [20; 10]; [] ]
  /\ Scenario.scan_all 5
       (Scenario.append_all Storage.empty 7
          [ Scenario.sent_at 10 1 3 "a"; Scenario.sent_at 20 2 4 "b" ])
       (fun _ => 15) 7 1
     = [ [ Scenario.appended (Scenario.sent_at 10 1 3 "a") ]; [] ].
Proof. split; reflexivity. Qed.

(** C2, amended: for a conversation holding [N] messages with pairwise
    distinct timestamps, all before the clock reading of the first scan, and a
    page size [L > 0], the chained scans (no cursor first, then each page's
    minimum timestamp as the next exclusive cursor) end after
    [floor(N/L) + 1] pages; together the pages hold each of the [N] messages
    exactly once; every page but the last holds [L] items and the last holds
    [N mod L], fewer than [L].  The number of pages is [ceil(N/L)] when [L]
    does not divide [N], and one more, the last page being empty, when it
    does. *)
Theorem chained_scans_cover_conversation :
  forall (s : Storage.Store) (clock : nat -> datetime) (c : UUID)
         (limit : Z) (fuel : nat),
    0 < limit ->
    NoDup (map Storage.timestamp (Storage.messages_of s c)) ->
    Forall (fun m => Storage.timestamp m < clock O) (Storage.messages_of s c) ->
    (List.length (Storage.messages_of s c) / Z.to_nat limit < fuel)%nat ->
    let N := List.length (Storage.messages_of s c) in
    let L := Z.to_nat limit in
    let pages := Scenario.scan_all fuel s clock c limit in
    Permutation (List.concat pages)
                (map MessageModel.to_dict (Storage.messages_of s c))
    /\ NoDup (List.concat pages)
    /\ List.length pages = S (N / L)
    /\ Forall (fun page => List.length page = L) (removelast pages)
    /\ List.length (last pages []) = (N mod L)%nat
    /\ (N mod L < L)%nat
    /\ List.length pages
       = ((N + L - 1) / L + (if (N mod L =? 0)%nat then 1 else 0))%nat.
Proof.
  intros s clock c limit fuel Hlimit Hdistinct Hbefore Hfuel N L pages.
  set (stored := order_by_desc Storage.timestamp (Storage.messages_of s c)).
  assert (Hperm : Permutation stored (Storage.messages_of s c))
    by apply order_by_desc_permutation.
  assert (Hstrict : strictly_descending Storage.timestamp stored)
    by now apply order_by_desc_strictly_descending.
  assert (HL : (0 < L)%nat) by (unfold L; lia).
  assert (Hlen : List.length stored = N) by now apply Permutation_length.
  assert (Hpages : pages
                   = map (map MessageModel.to_dict) (Scenario.chunks fuel L stored)).
  { unfold pages, Scenario.scan_all.
    apply (scan_from_chunks s clock c limit Hlimit Hstrict fuel O None [] stored).
    - reflexivity.
    - constructor.
    - rewrite Forall_forall in Hbefore |- *. intros r Hr. apply Hbefore.
      now apply (Permutation_in _ Hperm). }
  destruct (chunks_spec L HL fuel stored) as (Hc & Hn & Hfull & Hlast);
    [rewrite Hlen; exact Hfuel|].
  assert (Hconcat : List.concat pages = map MessageModel.to_dict stored)
    by (rewrite Hpages, <- concat_map, Hc; reflexivity).
  rewrite Hlen in Hn, Hlast.
  assert (Hcount : List.length pages = S (N / L))
    by (rewrite Hpages, length_map; exact Hn).
  repeat split.
  - rewrite Hconcat. now apply Permutation_map.
  - rewrite Hconcat.
    apply (strictly_descending_NoDup md_timestamp).
    apply StronglySorted_map. exact Hstrict.
  - exact Hcount.
  - rewrite Hpages, removelast_map. apply Forall_map.
    eapply Forall_impl; [|exact Hfull]. simpl. intros page Hp.
    now rewrite length_map.
  - rewrite Hpages.
    change (@nil message_dict) with (map MessageModel.to_dict []).
    rewrite last_map, length_map. exact Hlast.
  - apply Nat.mod_upper_bound. lia.
  - rewrite Hcount. symmetry. now apply pages_to_ceiling.
Qed.

Lemma chained_scans_witness :
  0 < 2
  /\ List.length (Scenario.scan_all 5 Scenario.four_messages (fun _ => 100) 7 2)
     = 3%nat.
Proof.
  split; [lia|].
  apply (chained_scans_cover_conversation
           Scenario.four_messages (fun _ => 100) 7 2 5).
  - lia.
  - rewrite four_messages_by_timestamp.
    repeat constructor; simpl; intuition discriminate.
  - repeat constructor.
  - vm_compute. lia.
Defined.

Lemma empty_scan_witness :
  ConversationModel.get_user_conversations Scenario.paired 50 9 20 (Some 50) = []
  /\ exists code detail,
      ConversationController.get_user_conversations
        Scenario.paired 50 50 9 1 20
      = inl (Python.HTTPException code detail).
Proof.
  apply (empty_scan_at_models_and_controllers
           [] Scenario.paired 50 50 9 7 1 20).
  - intros r [<-|[<-|[]]]; simpl; intros H; discriminate H.
  - intros m [].
Defined.



Lemma scan_after_appends_witness :
  Permutation
    (MessageModel.get_conversation_messages
       (Scenario.append_all Storage.empty 7
          [ Scenario.sent_at 10 1 3 "hello"; Scenario.sent_at 20 2 4 "hi" ])
       99 7 2 None)
    [ Scenario.appended (Scenario.sent_at 10 1 3 "hello");
      Scenario.appended (Scenario.sent_at 20 2 4 "hi") ].
Proof.
  apply (scan_after_appends_returns_all
           Storage.empty 7
           [ Scenario.sent_at 10 1 3 "hello"; Scenario.sent_at 20 2 4 "hi" ] 99).
  - reflexivity.
  - repeat constructor; simpl; intuition discriminate.
  - repeat constructor.
Defined.

(** ** More on the scans *)

Section ReadFacts.
Context {R : Type} (key : R -> Z).

Lemma limited_read_sound (p : R -> bool) (limit : Z) (table : list R) :
  Forall (fun r => In r table /\ p r = true)
         (Storage.limit_rows limit (order_by_desc key (filter p table))).
Proof.
  unfold Storage.limit_rows. apply Forall_firstn. apply Forall_forall.
  intros r Hr.
  apply (Permutation_in _ (order_by_desc_permutation key _)) in Hr.
  now apply filter_In in Hr.
Qed.

Lemma limited_read_complete (p : R -> bool) (limit : Z) (table : list R) :
  Z.of_nat (List.length (filter p table)) <= limit ->
  Storage.limit_rows limit (order_by_desc key (filter p table))
  = order_by_desc key (filter p table).
Proof.
  intros H. unfold Storage.limit_rows. apply firstn_all2.
  rewrite order_by_desc_length. lia.
Qed.

Lemma limited_read_prefix (limit limit' : Z) (rows : list R) :
  limit <= limit' ->
  Storage.limit_rows limit rows
  = firstn (Z.to_nat limit) (Storage.limit_rows limit' rows).
Proof.
  intros H. unfold Storage.limit_rows. rewrite firstn_firstn.
  f_equal. lia.
Qed.
End ReadFacts.

Lemma Forall_map_dict {A B : Type} (f : A -> B) (P : B -> Prop) (l : list A) :
  Forall (fun x => P (f x)) l -> Forall P (map f l).
Proof. intros H. now apply Forall_map. Qed.

(** X1: a scan returns only what is stored for the partition it was asked
    for: every conversation returned is a membership row of that user, every
    message returned is a message of that conversation, and each lies
    strictly before the cursor, or before the clock when no cursor is
    given. *)
Theorem scans_return_stored_rows_of_the_partition :
  forall (s : Storage.Store) (utcnow : datetime) (user c : UUID) (limit : Z)
         (before_ts : option datetime),
    let bound := match before_ts with Some t => t | None => utcnow end in
    Forall (fun d => exists row,
                In row (Storage.conversations_by_user s)
                /\ Storage.user_id row = user
                /\ Storage.last_message_ts row < bound
                /\ ConversationModel.to_dict row = d)
           (ConversationModel.get_user_conversations s utcnow user limit before_ts)
    /\ Forall (fun d => exists row,
                   In row (Storage.messages s)
                   /\ Storage.msg_conversation_id row = c
                   /\ Storage.timestamp row < bound
                   /\ MessageModel.to_dict row = d)
              (MessageModel.get_conversation_messages s utcnow c limit before_ts).
Proof.
  intros s utcnow user c limit before_ts bound. split.
  - unfold ConversationModel.get_user_conversations,
      Storage.select_user_conversations. fold bound.
    apply Forall_map_dict.
    eapply Forall_impl; [|apply limited_read_sound].
    simpl. intros row [Hin Hp]. apply andb_true_iff in Hp.
    destruct Hp as [Hu Ht]. exists row.
    apply Z.eqb_eq in Hu. apply Z.ltb_lt in Ht. auto.
  - unfold MessageModel.get_conversation_messages, Storage.select_messages.
    fold bound. apply Forall_map_dict.
    eapply Forall_impl; [|apply limited_read_sound].
    simpl. intros row [Hin Hp]. apply andb_true_iff in Hp.
    destruct Hp as [Hu Ht]. exists row.
    apply Z.eqb_eq in Hu. apply Z.ltb_lt in Ht. auto.
Qed.

(** X2: when the limit is at least the number of rows that qualify, a scan
    returns every one of them, each once. *)
Theorem scan_with_room_returns_every_row :
  forall (s : Storage.Store) (utcnow : datetime) (user c : UUID) (limit : Z)
         (before_ts : option datetime),
    let bound := match before_ts with Some t => t | None => utcnow end in
    let own := filter (fun r => (Storage.user_id r =? user)
                                && (Storage.last_message_ts r <? bound))
                      (Storage.conversations_by_user s) in
    let held := filter (fun r => (Storage.msg_conversation_id r =? c)
                                 && (Storage.timestamp r <? bound))
                       (Storage.messages s) in
    Z.of_nat (List.length own) <= limit ->
    Z.of_nat (List.length held) <= limit ->
    Permutation
      (ConversationModel.get_user_conversations s utcnow user limit before_ts)
      (map ConversationModel.to_dict own)
    /\ Permutation
         (MessageModel.get_conversation_messages s utcnow c limit before_ts)
         (map MessageModel.to_dict held).
Proof.
  intros s utcnow user c limit before_ts bound own held Hown Hheld. split.
  - unfold ConversationModel.get_user_conversations,
      Storage.select_user_conversations. fold bound.
    rewrite limited_read_complete by exact Hown.
    apply Permutation_map, order_by_desc_permutation.
  - unfold MessageModel.get_conversation_messages, Storage.select_messages.
    fold bound.
    rewrite limited_read_complete by exact Hheld.
    apply Permutation_map, order_by_desc_permutation.
Qed.

Lemma scan_with_room_witness :
  Permutation
    (MessageModel.get_conversation_messages Scenario.four_messages 35 7 5 None)
    (map MessageModel.to_dict
       (filter (fun r => (Storage.msg_conversation_id r =? 7)
                         && (Storage.timestamp r <? 35))
               (Storage.messages Scenario.four_messages))).
Proof.
  apply (scan_with_room_returns_every_row
           Scenario.four_messages 35 0 7 5 None).
  - vm_compute. discriminate.
  - vm_compute. discriminate.
Defined.

(** X3: a scan with a smaller limit returns the first items of the scan with
    a larger limit, for the same partition and bound. *)
Theorem scan_with_smaller_limit_is_a_prefix :
  forall (s : Storage.Store) (utcnow : datetime) (user c : UUID)
         (limit limit' : Z) (before_ts : option datetime),
    limit <= limit' ->
    ConversationModel.get_user_conversations s utcnow user limit before_ts
    = firstn (Z.to_nat limit)
        (ConversationModel.get_user_conversations
           s utcnow user limit' before_ts)
    /\ MessageModel.get_conversation_messages s utcnow c limit before_ts
       = firstn (Z.to_nat limit)
           (MessageModel.get_conversation_messages
              s utcnow c limit' before_ts).
Proof.
  intros s utcnow user c limit limit' before_ts H.
  unfold ConversationModel.get_user_conversations,
    Storage.select_user_conversations,
    MessageModel.get_conversation_messages, Storage.select_messages.
  rewrite !firstn_map. split.
  - f_equal. now apply limited_read_prefix.
  - f_equal. now apply limited_read_prefix.
Qed.

Lemma scan_with_smaller_limit_witness :
  MessageModel.get_conversation_messages Scenario.four_messages 99 7 1 None
  = firstn 1
      (MessageModel.get_conversation_messages Scenario.four_messages 99 7 3 None).
Proof.
  apply (scan_with_smaller_limit_is_a_prefix
           Scenario.four_messages 99 0 7 1 3 None).
  lia.
Defined.

(** ** More on the resolver and the lookup by id *)

Section CreationFacts.
Import Storage ConversationModel.

Lemma upsert_after_fresh {R : Type} (same_key : R -> R -> bool) (r : R) l l' :
  (forall x, In x l -> same_key r x = false) ->
  upsert same_key r (l ++ l') = l ++ upsert same_key r l'.
Proof.
  induction l as [|y l IH]; simpl; intros H; [reflexivity|].
  rewrite (H y) by auto. f_equal. apply IH. auto.
Qed.

Lemma no_row_of_either s a b :
  (forall r, In r (conversations_by_user s) ->
             user_id r <> a /\ user_id r <> b) ->
  select_conversation_of_either s a b = [].
Proof.
  intros H. unfold select_conversation_of_either, limit_rows.
  rewrite filter_none; [reflexivity|].
  intros r Hr. destruct (H r Hr) as [Ha Hb].
  apply Z.eqb_neq in Ha, Hb. now rewrite Ha, Hb.
Qed.

(** What the resolver stores when neither user has a membership row. *)
Lemma creation_appends s uuid4 utcnow a b :
  (forall r, In r (conversations_by_user s) ->
             user_id r <> a /\ user_id r <> b) ->
  create_or_get_conversation s uuid4 utcnow a b
  = ({| conversations_by_user :=
          conversations_by_user s
          ++ (if a =? b
              then [ {| user_id := b; last_message_ts := utcnow;
                        conversation_id := uuid4; peer_id := a |} ]
              else [ {| user_id := a; last_message_ts := utcnow;
                        conversation_id := uuid4; peer_id := b |};
                     {| user_id := b; last_message_ts := utcnow;
                        conversation_id := uuid4; peer_id := a |} ]);
        messages := messages s |}, uuid4).
Proof.
  intros H. unfold create_or_get_conversation.
  rewrite (no_row_of_either s a b H).
  unfold insert_conversation. simpl.
  set (ra := {| user_id := a; last_message_ts := utcnow;
                conversation_id := uuid4; peer_id := b |}).
  set (rb := {| user_id := b; last_message_ts := utcnow;
                conversation_id := uuid4; peer_id := a |}).
  assert (Ha : forall x, In x (conversations_by_user s) ->
                         same_conversation_key ra x = false).
  { intros x Hx. unfold same_conversation_key. simpl.
    destruct (H x Hx) as [Ha _].
    replace (a =? user_id x) with false; [reflexivity|].
    symmetry. apply Z.eqb_neq. congruence. }
  assert (Hb : forall x, In x (conversations_by_user s) ->
                         same_conversation_key rb x = false).
  { intros x Hx. unfold same_conversation_key. simpl.
    destruct (H x Hx) as [_ Hb].
    replace (b =? user_id x) with false; [reflexivity|].
    symmetry. apply Z.eqb_neq. congruence. }
  rewrite (upsert_fresh same_conversation_key ra _ Ha).
  rewrite (upsert_after_fresh same_conversation_key rb _ _ Hb).
  simpl. unfold same_conversation_key. simpl.
  rewrite Z.eqb_refl, andb_true_r, (Z.eqb_sym b a). reflexivity.
Qed.
End CreationFacts.

(** X4: [get_conversation] finds a conversation exactly when a membership
    row carries its id: the answer then names that id and the peer of a
    stored row of the conversation, and the empty answer means no stored row
    has the id. *)
Theorem get_conversation_finds_stored_rows :
  forall (s : Storage.Store) (c : UUID),
    match ConversationModel.get_conversation s c with
    | Some found =>
        cr_conversation_id found = c
        /\ exists row, In row (Storage.conversations_by_user s)
                       /\ Storage.conversation_id row = c
                       /\ Storage.peer_id row = cr_peer_id found
    | None =>
        forall row, In row (Storage.conversations_by_user s) ->
                    Storage.conversation_id row <> c
    end.
Proof.
  intros s c. unfold ConversationModel.get_conversation.
  destruct (Storage.select_conversation s c) as [|row rest] eqn:E.
  - intros row Hrow Hc.
    assert (Hin : In row (Storage.select_conversation s c)).
    { unfold Storage.select_conversation. apply filter_In.
      split; [exact Hrow|]. now apply Z.eqb_eq. }
    rewrite E in Hin. destruct Hin.
  - assert (Hin : In row (Storage.select_conversation s c))
      by (rewrite E; now left).
    unfold Storage.select_conversation in Hin. apply filter_In in Hin.
    destruct Hin as [Hin Hc]. apply Z.eqb_eq in Hc. simpl.
    split; [exact Hc|]. exists row. auto.
Qed.

(** X5: when neither user has a membership row, the resolver returns the
    identifier it drew and stores the conversation after the rows already
    there, which it leaves as they are: one row under each user naming the
    other as peer, both stamped with the clock reading (a single row when
    the two users are the same); the message table is not touched. *)
Theorem resolver_creates_both_rows :
  forall (s : Storage.Store) (uuid4 : UUID) (utcnow : datetime) (a b : UUID),
    (forall r, In r (Storage.conversations_by_user s) ->
               Storage.user_id r <> a /\ Storage.user_id r <> b) ->
    let s' := fst (ConversationModel.create_or_get_conversation
                     s uuid4 utcnow a b) in
    snd (ConversationModel.create_or_get_conversation s uuid4 utcnow a b)
    = uuid4
    /\ Storage.messages s' = Storage.messages s
    /\ Storage.conversations_by_user s'
       = Storage.conversations_by_user s
         ++ (if a =? b
             then [ {| Storage.user_id := b; Storage.last_message_ts := utcnow;
                       Storage.conversation_id := uuid4;
                       Storage.peer_id := a |} ]
             else [ {| Storage.user_id := a; Storage.last_message_ts := utcnow;
                       Storage.conversation_id := uuid4;
                       Storage.peer_id := b |};
                    {| Storage.user_id := b; Storage.last_message_ts := utcnow;
                       Storage.conversation_id := uuid4;
                       Storage.peer_id := a |} ])
    /\ Scenario.membership_rows s' uuid4 a b utcnow utcnow.
Proof.
  intros s uuid4 utcnow a b H s'. unfold s'.
  rewrite (creation_appends s uuid4 utcnow a b H). simpl.
  repeat split.
  - apply in_or_app. right. destruct (a =? b) eqn:E; simpl; auto.
    apply Z.eqb_eq in E. subst. auto.
  - apply in_or_app. right. destruct (a =? b); simpl; auto.
Qed.

Lemma resolver_creates_witness :
  Scenario.membership_rows
    (fst (ConversationModel.create_or_get_conversation
            (Scenario.only_row 8 3 50 9) 100 5 1 2))
    100 1 2 5 5.
Proof.
  apply (resolver_creates_both_rows (Scenario.only_row 8 3 50 9) 100 5 1 2).
  intros r [<-|[]]; simpl; split; discriminate.
Defined.

(** X6: a conversation the resolver has just created under an identifier no
    stored row carried is found by [get_conversation]: the rows stored under
    the identifier are the new ones, one of the two users under each with
    the other as peer, so whichever of them the lookup lists first, the
    answer names the identifier and one of the two users as peer. *)
Theorem created_conversation_is_found :
  forall (s : Storage.Store) (uuid4 : UUID) (utcnow : datetime) (a b : UUID),
    (forall r, In r (Storage.conversations_by_user s) ->
               Storage.user_id r <> a /\ Storage.user_id r <> b) ->
    (forall r, In r (Storage.conversations_by_user s) ->
               Storage.conversation_id r <> uuid4) ->
    let s' := fst (ConversationModel.create_or_get_conversation
                     s uuid4 utcnow a b) in
    Storage.select_conversation s' uuid4 <> []
    /\ Forall (fun row =>
                 Storage.conversation_id row = uuid4
                 /\ ((Storage.user_id row = a /\ Storage.peer_id row = b)
                     \/ (Storage.user_id row = b /\ Storage.peer_id row = a)))
              (Storage.select_conversation s' uuid4)
    /\ exists found,
        ConversationModel.get_conversation s' uuid4 = Some found
        /\ cr_conversation_id found = uuid4
        /\ (cr_peer_id found = a \/ cr_peer_id found = b).
Proof.
  intros s uuid4 utcnow a b H Hfresh s'. unfold s'.
  rewrite (creation_appends s uuid4 utcnow a b H). simpl.
  unfold ConversationModel.get_conversation, Storage.select_conversation.
  simpl. rewrite filter_app, filter_none.
  - destruct (a =? b) eqn:E; simpl; rewrite Z.eqb_refl; simpl.
    + split; [discriminate|]. split; [|eauto].
      repeat (apply Forall_cons;
              [simpl; split; [reflexivity|];
               ((left; split; reflexivity) || (right; split; reflexivity))|]).
      apply Forall_nil.
    + split; [discriminate|]. split; [|eauto].
      repeat (apply Forall_cons;
              [simpl; split; [reflexivity|];
               ((left; split; reflexivity) || (right; split; reflexivity))|]).
      apply Forall_nil.
  - intros r Hr. apply Z.eqb_neq. now apply Hfresh.
Qed.

Lemma created_conversation_witness :
  exists found,
    ConversationModel.get_conversation
      (fst (ConversationModel.create_or_get_conversation
              (Scenario.only_row 8 3 50 9) 100 5 1 2))
      100
    = Some found
    /\ cr_conversation_id found = 100
    /\ (cr_peer_id found = 1 \/ cr_peer_id found = 2).
Proof.
  apply (created_conversation_is_found (Scenario.only_row 8 3 50 9) 100 5 1 2).
  - intros r [<-|[]]; simpl; split; discriminate.
  - intros r [<-|[]]; simpl; discriminate.
Defined.

(** X7: after the resolver has created a conversation for two users without
    membership rows, a scan of either user's conversations with a positive
    limit and a bound after the creation time lists exactly that
    conversation, with the other user as peer. *)
Theorem created_conversation_is_listed :
  forall (s : Storage.Store) (uuid4 : UUID) (utcnow now : datetime)
         (a b : UUID) (limit : Z) (before_ts : option datetime),
    (forall r, In r (Storage.conversations_by_user s) ->
               Storage.user_id r <> a /\ Storage.user_id r <> b) ->
    0 < limit ->
    utcnow < match before_ts with Some t => t | None => now end ->
    let s' := fst (ConversationModel.create_or_get_conversation
                     s uuid4 utcnow a b) in
    ConversationModel.get_user_conversations s' now a limit before_ts
    = [ {| cd_conversation_id := uuid4; cd_peer_id := b;
           cd_last_message_ts := utcnow |} ]
    /\ ConversationModel.get_user_conversations s' now b limit before_ts
       = [ {| cd_conversation_id := uuid4; cd_peer_id := a;
              cd_last_message_ts := utcnow |} ].
Proof.
  intros s uuid4 utcnow now a b limit before_ts H Hlimit Hbound s'.
  unfold s'. rewrite (creation_appends s uuid4 utcnow a b H). simpl.
  unfold ConversationModel.get_user_conversations,
    Storage.select_user_conversations, Storage.limit_rows.
  simpl Storage.conversations_by_user.
  set (bound := match before_ts with Some t => t | None => now end) in *.
  assert (Hlt : (utcnow <? bound) = true) by now apply Z.ltb_lt.
  assert (Hn : exists n, Z.to_nat limit = S n)
    by (exists (Nat.pred (Z.to_nat limit)); lia).
  destruct Hn as [n Hn]. rewrite Hn.
  rewrite !filter_app.
  split.
  - rewrite (filter_none _ (Storage.conversations_by_user s)).
    + destruct (a =? b) eqn:E.
      * apply Z.eqb_eq in E. subst b. simpl.
        rewrite Z.eqb_refl, Hlt. simpl. now destruct n.
      * simpl. rewrite Z.eqb_refl, Hlt, (Z.eqb_sym b a), E. simpl. now destruct n.
    + intros r Hr. destruct (H r Hr) as [Ha _].
      apply Z.eqb_neq in Ha. now rewrite Ha.
  - rewrite (filter_none _ (Storage.conversations_by_user s)).
    + destruct (a =? b) eqn:E.
      * apply Z.eqb_eq in E. subst b. simpl.
        rewrite Z.eqb_refl, Hlt. simpl. now destruct n.
      * simpl. rewrite Z.eqb_refl, Hlt, E. simpl. now destruct n.
    + intros r Hr. destruct (H r Hr) as [_ Hb].
      apply Z.eqb_neq in Hb. now rewrite Hb.
Qed.

Lemma created_conversation_listed_witness :
  ConversationModel.get_user_conversations
    (fst (ConversationModel.create_or_get_conversation
            (Scenario.only_row 8 3 50 9) 100 5 1 2))
    60 1 20 None
  = [ {| cd_conversation_id := 100; cd_peer_id := 2;
         cd_last_message_ts := 5 |} ].
Proof.
  apply (created_conversation_is_listed
           (Scenario.only_row 8 3 50 9) 100 5 60 1 2 20 None).
  - intros r [<-|[]]; simpl; split; discriminate.
  - lia.
  - simpl. lia.
Defined.

Lemma created_rows_answer probe s uuid4 utcnow uuid4' utcnow' a b x y :
  Scenario.answers_with_a_stored_row probe ->
  (forall r, In r (Storage.conversations_by_user s) ->
             Storage.user_id r <> a /\ Storage.user_id r <> b) ->
  (x = a /\ y = b) \/ (x = b /\ y = a) ->
  ConversationModel.create_or_get_conversation_reading probe
    (fst (ConversationModel.create_or_get_conversation s uuid4 utcnow a b))
    uuid4' utcnow' x y
  = (fst (ConversationModel.create_or_get_conversation s uuid4 utcnow a b),
     uuid4).
Proof.
  intros Hprobe H Hxy.
  rewrite (creation_appends s uuid4 utcnow a b H). simpl.
  set (s1 := {| Storage.conversations_by_user := _; Storage.messages := _ |}).
  specialize (Hprobe s1 x y).
  unfold ConversationModel.create_or_get_conversation_reading.
  destruct (probe s1 x y) as [|row rest].
  - exfalso.
    destruct (Hprobe {| Storage.user_id := b;
                        Storage.last_message_ts := utcnow;
                        Storage.conversation_id := uuid4;
                        Storage.peer_id := a |}) as [Hx Hy].
    + unfold s1. simpl. apply in_or_app. right.
      destruct (a =? b); simpl; auto.
    + simpl in Hx, Hy. destruct Hxy as [[_ ->]|[-> _]]; congruence.
  - destruct Hprobe as [Hin Huser]. f_equal.
    unfold s1 in Hin. simpl in Hin. apply in_app_or in Hin.
    destruct Hin as [Hin|Hin].
    + exfalso. destruct (H row Hin) as [Ha Hb].
      destruct Hxy as [[-> ->]|[-> ->]]; destruct Huser; congruence.
    + destruct (a =? b); simpl in Hin.
      * destruct Hin as [<-|[]]. reflexivity.
      * destruct Hin as [<-|[<-|[]]]; reflexivity.
Qed.

(** X22: on any store, whatever order it lists the rows of the probe in,
    once the resolver has created the conversation of two users who had no
    membership row, every later call for the two users, in either argument
    order, returns the identifier of that conversation and writes
    nothing. *)
Theorem created_conversation_is_returned_in_either_order :
  forall (probe probe' :
            Storage.Store -> UUID -> UUID -> list Storage.conversation_row)
         (s : Storage.Store) (uuid4 uuid4' : UUID) (utcnow utcnow' : datetime)
         (a b : UUID),
    Scenario.answers_with_a_stored_row probe ->
    Scenario.answers_with_a_stored_row probe' ->
    (forall r, In r (Storage.conversations_by_user s) ->
               Storage.user_id r <> a /\ Storage.user_id r <> b) ->
    let created :=
      ConversationModel.create_or_get_conversation_reading
        probe s uuid4 utcnow a b in
    snd created = uuid4
    /\ ConversationModel.create_or_get_conversation_reading
         probe' (fst created) uuid4' utcnow' a b
       = (fst created, uuid4)
    /\ ConversationModel.create_or_get_conversation_reading
         probe' (fst created) uuid4' utcnow' b a
       = (fst created, uuid4).
Proof.
  intros probe probe' s uuid4 uuid4' utcnow utcnow' a b Hprobe Hprobe' H created.
  assert (Hcreated : created
                     = ConversationModel.create_or_get_conversation
                         s uuid4 utcnow a b).
  { unfold created, ConversationModel.create_or_get_conversation_reading,
      ConversationModel.create_or_get_conversation.
    rewrite (no_row_of_either s a b H).
    specialize (Hprobe s a b). destruct (probe s a b) as [|row rest];
      [reflexivity|].
    exfalso. destruct Hprobe as [Hin Huser].
    destruct (H row Hin) as [Ha Hb]. destruct Huser; contradiction. }
  rewrite Hcreated. split; [|split].
  - now rewrite (creation_appends s uuid4 utcnow a b H).
  - apply created_rows_answer; auto.
  - apply created_rows_answer; auto.
Qed.

Lemma created_conversation_returned_witness :
  ConversationModel.create_or_get_conversation_reading
    Storage.select_conversation_of_listed
    (fst (ConversationModel.create_or_get_conversation_reading
            Storage.select_conversation_of_listed
            (Scenario.only_row 8 3 50 9) 100 5 1 2))
    300 8 2 1
  = (fst (ConversationModel.create_or_get_conversation_reading
            Storage.select_conversation_of_listed
            (Scenario.only_row 8 3 50 9) 100 5 1 2),
     100).
Proof.
  apply (created_conversation_is_returned_in_either_order
           Storage.select_conversation_of_listed
           Storage.select_conversation_of_listed
           (Scenario.only_row 8 3 50 9) 100 300 5 8 1 2).
  - exact listed_order_probe_answers.
  - exact listed_order_probe_answers.
  - intros r [<-|[]]; simpl; split; discriminate.
Defined.

(** ** More on appending *)

Section MessageFacts.
Import Storage MessageModel.

Lemma filter_upsert_other {R : Type} (same_key : R -> R -> bool)
    (p : R -> bool) (r : R) (l : list R) :
  p r = false ->
  (forall x, same_key r x = true -> p x = false) ->
  filter p (upsert same_key r l) = filter p l.
Proof.
  intros Hr Hkey. induction l as [|x l IH]; simpl.
  - now rewrite Hr.
  - destruct (same_key r x) eqn:E; simpl.
    + now rewrite Hr, (Hkey x E).
    + now rewrite IH.
Qed.

Lemma order_by_desc_newest {R : Type} (key : R -> Z) (r : R) (l : list R) :
  Forall (fun x => key x < key r) l ->
  order_by_desc key (l ++ [r]) = r :: order_by_desc key l.
Proof.
  induction 1 as [|x l Hx Hl IH]; simpl; [reflexivity|].
  rewrite IH. simpl.
  now replace (key r <? key x) with false by (symmetry; apply Z.ltb_ge; lia).
Qed.

Lemma create_message_stores s uuid4 utcnow sender c text ts :
  messages (fst (create_message s uuid4 utcnow sender c text ts))
  = upsert same_message_key
      {| message_id := uuid4; msg_conversation_id := c; sender_id := sender;
         content := text;
         timestamp := match ts with Some t => t | None => utcnow end |}
      (messages s).
Proof. reflexivity. Qed.

Lemma create_message_restamps s uuid4 utcnow sender c text ts :
  conversations_by_user (fst (create_message s uuid4 utcnow sender c text ts))
  = map (fun r => if conversation_id r =? c
                  then set_last_message_ts
                         match ts with Some t => t | None => utcnow end r
                  else r)
        (conversations_by_user s).
Proof. reflexivity. Qed.

End MessageFacts.

(** X8: appending a message to one conversation leaves the messages of
    every other conversation as they were, and with them the result of every
    scan of it, whatever the update of the membership rows does, as long as
    it leaves the message table alone. *)
Theorem create_message_leaves_other_conversations :
  forall (update : Storage.Store -> datetime -> UUID -> Storage.Store)
         (s : Storage.Store) (uuid4 : UUID) (utcnow : datetime)
         (sender c : UUID) (text : string) (ts : option datetime) (c' : UUID),
    (forall s0 t0 c0,
        Storage.messages (update s0 t0 c0) = Storage.messages s0) ->
    c' <> c ->
    let s' := fst (MessageModel.create_message_with
                     update s uuid4 utcnow sender c text ts) in
    Storage.messages_of s' c' = Storage.messages_of s c'
    /\ (forall now limit before_ts,
           MessageModel.get_conversation_messages s' now c' limit before_ts
           = MessageModel.get_conversation_messages s now c' limit before_ts).
Proof.
  intros update s uuid4 utcnow sender c text ts c' Hupdate Hc s'.
  assert (Hne : (c =? c') = false) by (apply Z.eqb_neq; congruence).
  assert (Hstored :
            Storage.messages s'
            = Storage.upsert Storage.same_message_key
                {| Storage.message_id := uuid4;
                   Storage.msg_conversation_id := c;
                   Storage.sender_id := sender; Storage.content := text;
                   Storage.timestamp :=
                     match ts with Some t => t | None => utcnow end |}
                (Storage.messages s)).
  { unfold s', MessageModel.create_message_with. simpl.
    now rewrite Hupdate. }
  split.
  - unfold Storage.messages_of. rewrite Hstored.
    apply filter_upsert_other; simpl; [exact Hne|].
    intros x Hx. unfold Storage.same_message_key in Hx. simpl in Hx.
    apply andb_true_iff in Hx. destruct Hx as [Hx _].
    apply Z.eqb_eq in Hx. now rewrite <- Hx.
  - intros now limit before_ts.
    unfold MessageModel.get_conversation_messages, Storage.select_messages.
    rewrite Hstored.
    rewrite filter_upsert_other; [reflexivity| |].
    + simpl. now rewrite Hne.
    + intros x Hx. unfold Storage.same_message_key in Hx. simpl in Hx.
      apply andb_true_iff in Hx. destruct Hx as [Hx _].
      apply Z.eqb_eq in Hx. now rewrite <- Hx, Hne.
Qed.

Lemma create_message_leaves_witness :
  Storage.messages_of
    (fst (MessageModel.create_message
            Scenario.four_messages 900 50 1 8 "hello" None)) 7
  = Storage.messages_of Scenario.four_messages 7.
Proof.
  apply (create_message_leaves_other_conversations
           Storage.update_last_message_ts
           Scenario.four_messages 900 50 1 8 "hello" None 7).
  - reflexivity.
  - discriminate.
Defined.

(** X9: a message appended with a timestamp after every stored message of
    its conversation comes first in the next scan whose bound lies after
    that timestamp, followed by what a scan for one item fewer returned
    before the append. *)
Theorem appended_message_comes_first :
  forall (s : Storage.Store) (uuid4 : UUID) (utcnow : datetime)
         (sender c : UUID) (text : string) (ts : option datetime)
         (now : datetime) (limit : Z) (before_ts : option datetime),
    let t := match ts with Some t => t | None => utcnow end in
    Forall (fun m => Storage.timestamp m < t) (Storage.messages_of s c) ->
    t < match before_ts with Some b => b | None => now end ->
    0 < limit ->
    MessageModel.get_conversation_messages
      (fst (MessageModel.create_message s uuid4 utcnow sender c text ts))
      now c limit before_ts
    = {| md_message_id := uuid4; md_sender_id := sender;
         md_content := text; md_timestamp := t |}
      :: MessageModel.get_conversation_messages s now c (limit - 1) before_ts.
Proof.
  intros s uuid4 utcnow sender c text ts now limit before_ts t Hnew Hbound Hl.
  assert (Hfresh :
            Storage.messages_of
              (fst (MessageModel.create_message s uuid4 utcnow sender c text ts))
              c
            = Storage.messages_of s c
              ++ [ {| Storage.message_id := uuid4;
                      Storage.msg_conversation_id := c;
                      Storage.sender_id := sender; Storage.content := text;
                      Storage.timestamp := t |} ]).
  { apply (messages_of_append_fresh s c
             {| Scenario.ac_uuid4 := uuid4; Scenario.ac_utcnow := utcnow;
                Scenario.ac_sender_id := sender;
                Scenario.ac_content := text;
                Scenario.ac_timestamp := ts |}).
    intros m Hm. rewrite Forall_forall in Hnew. specialize (Hnew m Hm).
    unfold Scenario.stored_timestamp. simpl. fold t. lia. }
  unfold MessageModel.get_conversation_messages.
  rewrite !select_messages_sorted, Hfresh.
  rewrite (order_by_desc_newest Storage.timestamp) by exact Hnew.
  replace (Z.to_nat limit) with (S (Z.to_nat (limit - 1))) by lia.
  simpl filter.
  match goal with
  | |- context [if ?x <? ?y then _ else _] =>
      replace (x <? y) with true by (symmetry; apply Z.ltb_lt; exact Hbound)
  end.
  reflexivity.
Qed.

Lemma appended_message_witness :
  MessageModel.get_conversation_messages
    (fst (MessageModel.create_message
            Scenario.four_messages 900 50 1 7 "hello" None))
    60 7 2 None
  = {| md_message_id := 900; md_sender_id := 1;
       md_content := "hello"; md_timestamp := 50 |}
    :: MessageModel.get_conversation_messages
         Scenario.four_messages 60 7 (2 - 1) None.
Proof.
  apply (appended_message_comes_first
           Scenario.four_messages 900 50 1 7 "hello" None 60 2 None).
  - repeat constructor.
  - simpl. lia.
  - lia.
Defined.



(** ** More on the controllers and the routes *)

(** X12: [ConversationController.get_user_conversations] never returns a
    page.  For every input it raises an [HTTPException] of status 500: built
    from its own 404 when the scan is empty, and from the validation error of
    [PaginatedConversationResponse], whose required field [data] is not
    given, when the scan returned conversations. *)
Theorem get_user_conversations_never_returns_a_page :
  forall (s : Storage.Store) (utcnow utcnow' : datetime)
         (user : UUID) (page limit : Z),
    ConversationController.get_user_conversations
      s utcnow utcnow' user page limit
    = inl (Python.HTTPException 500
             (Python.Formatted
                "An error occurred while retrieving conversations: "
                match ConversationModel.get_user_conversations
                        s utcnow' user limit (Some utcnow) with
                | [] => Python.HTTPException 404
                          (Python.Literal "No conversations found for this user")
                | _ :: _ => Python.ValidationError
                              "PaginatedConversationResponse" ["data"]
                end)).
Proof.
  intros s utcnow utcnow' user page limit.
  unfold ConversationController.get_user_conversations.
  destruct (ConversationModel.get_user_conversations
              s utcnow' user limit (Some utcnow)); reflexivity.
Qed.

Lemma get_conversation_absent_or_invalid (s : Storage.Store) (c : UUID) :
  ConversationController.get_conversation s c
  = inl (Python.HTTPException 500
           (Python.Formatted
              "An error occurred while retrieving the conversation: "
              match ConversationModel.get_conversation s c with
              | None => Python.HTTPException 404
                          (Python.Literal "Conversation not found")
              | Some _ => Python.ValidationError
                            "ConversationResponse" ["last_message_ts"]
              end)).
Proof.
  unfold ConversationController.get_conversation.
  destruct (ConversationModel.get_conversation s c); reflexivity.
Qed.

(** X13: [ConversationController.get_conversation] never returns a
    response.  For every input it raises an [HTTPException] of status 500:
    built from its own 404 when the conversation is not stored, and from the
    validation error of [ConversationResponse], whose required field
    [last_message_ts] is not given, when it is. *)
Theorem get_conversation_never_returns_a_response :
  forall (s : Storage.Store) (c : UUID),
    ConversationController.get_conversation s c
    = inl (Python.HTTPException 500
             (Python.Formatted
                "An error occurred while retrieving the conversation: "
                match ConversationModel.get_conversation s c with
                | None => Python.HTTPException 404
                            (Python.Literal "Conversation not found")
                | Some _ => Python.ValidationError
                              "ConversationResponse" ["last_message_ts"]
                end)).
Proof. intros s c. apply get_conversation_absent_or_invalid. Qed.

(** X14: both scans of [MessageController] raise an [HTTPException] of
    status 500 for every input and whatever the response schema: they pass
    the models a keyword [page] that neither model function declares, so no
    scan is run. *)
Theorem message_scans_of_the_controller_always_fail :
  forall (PaginatedMessageResponse : list Python.parameter)
         (s : Storage.Store) (utcnow : datetime) (c : UUID)
         (before_timestamp : datetime) (page limit : Z),
    MessageController.get_conversation_messages
      PaginatedMessageResponse s utcnow c page limit
    = inl (Python.HTTPException 500
             (Python.Formatted "An error occurred while retrieving messages: "
                (Python.UnexpectedKeyword "get_conversation_messages" "page")))
    /\ MessageController.get_messages_before_timestamp
         PaginatedMessageResponse s utcnow c before_timestamp page limit
       = inl (Python.HTTPException 500
                (Python.Formatted
                   "An error occurred while retrieving messages: "
                   (Python.UnexpectedKeyword
                      "get_messages_before_timestamp" "page")))
    /\ Python.declares
         MessageController.get_conversation_messages_parameters "page" = false
    /\ Python.declares
         MessageController.get_messages_before_timestamp_parameters "page"
       = false.
Proof. intros. repeat split; reflexivity. Qed.

(** X15: the two routes that take a [before] query parameter never reach
    their controller: each passes it on as the keyword [before_ts], which the
    controller method does not declare, so the call is refused for every
    input, outside any handler. *)
Theorem routes_with_before_are_refused :
  forall (PaginatedMessageResponse : list Python.parameter)
         (s : Storage.Store) (utcnow utcnow' : datetime) (user c : UUID)
         (limit : Z) (before : option datetime),
    Routes.get_user_conversations s utcnow utcnow' user limit before
    = inl (Python.UnexpectedKeyword "get_user_conversations" "before_ts")
    /\ Routes.get_conversation_messages
         PaginatedMessageResponse s utcnow c limit before
       = inl (Python.UnexpectedKeyword "get_conversation_messages" "before_ts").
Proof. intros. split; reflexivity. Qed.

(** X16: the three other routes reach their controller and end, for every
    input, with its [HTTPException] of status 500; [send_message] leaves the
    store as it was. *)
Theorem other_routes_end_with_500 :
  forall (PaginatedMessageResponse : list Python.parameter)
         (s : Storage.Store) (uuid4 : UUID) (utcnow utcnow' : datetime)
         (c : UUID) (before_timestamp : datetime) (limit : Z)
         (message : MessageController.MessageCreate),
    (exists detail,
        Routes.get_conversation s c
        = inl (Python.HTTPException 500 detail))
    /\ (exists detail,
           Routes.get_messages_before_timestamp
             PaginatedMessageResponse s utcnow c before_timestamp limit
           = inl (Python.HTTPException 500 detail))
    /\ (exists detail,
           Routes.send_message s uuid4 utcnow utcnow' message
           = (s, inl (Python.HTTPException 500 detail))).
Proof.
  intros PMR s uuid4 utcnow utcnow' c before_timestamp limit message.
  split; [|split].
  - unfold Routes.get_conversation. simpl.
    rewrite get_conversation_absent_or_invalid. eauto.
  - eexists. reflexivity.
  - eexists. reflexivity.
Qed.

(** ** Bootstrap *)

Section WaitFacts.
Import SetupDb.
Variable connects : nat -> bool.

Lemma wait_loop_spec (remaining : nat) :
  forall (attempt : nat) (slept : Z),
    match wait_loop remaining attempt connects slept with
    | (Some k, total) =>
        (attempt <= k < attempt + remaining)%nat
        /\ connects k = true
        /\ (forall j, (attempt <= j < k)%nat -> connects j = false)
        /\ total = slept + 5 * Z.of_nat (k - attempt)
    | (None, total) =>
        (forall j, (attempt <= j < attempt + remaining)%nat ->
                   connects j = false)
        /\ total = slept + 5 * Z.of_nat remaining
    end.
Proof.
  induction remaining as [|remaining IH]; intros attempt slept;
    cbn [wait_loop].
  - split; [intros j Hj; lia|lia].
  - destruct (connects attempt) eqn:E.
    + repeat split; try lia; try exact E.
    + specialize (IH (S attempt) (slept + 5)).
      destruct (wait_loop remaining (S attempt) connects (slept + 5))
        as [[k|] total].
      * destruct IH as (Hk & Hc & Hbefore & Ht).
        repeat split; try lia; [exact Hc|].
        intros j Hj. destruct (Nat.eq_dec j attempt) as [->|Hne];
          [exact E|apply Hbefore; lia].
      * destruct IH as (Hnone & Ht). split; [|lia].
        intros j Hj. destruct (Nat.eq_dec j attempt) as [->|Hne];
          [exact E|apply Hnone; lia].
Qed.
End WaitFacts.

(** X17: [wait_for_cassandra] returns at the first of at most ten attempts
    that connects, having slept five seconds after each failed attempt
    before it; it raises exactly when all ten attempts fail, after fifty
    seconds of sleep. *)
Theorem wait_for_cassandra_gives_up_after_ten :
  forall (connects : nat -> bool),
    match SetupDb.wait_for_cassandra connects with
    | (Some k, slept) =>
        (k < 10)%nat
        /\ connects k = true
        /\ (forall j, (j < k)%nat -> connects j = false)
        /\ slept = 5 * Z.of_nat k
    | (None, slept) =>
        (forall j, (j < 10)%nat -> connects j = false) /\ slept = 50
    end.
Proof.
  intros connects. unfold SetupDb.wait_for_cassandra.
  pose proof (wait_loop_spec connects 10 O 0) as H.
  destruct (SetupDb.wait_loop 10 0 connects 0) as [[k|] slept].
  - destruct H as (Hk & Hc & Hbefore & Ht).
    repeat split; try lia; [exact Hc|]. intros j Hj. apply Hbefore. lia.
  - destruct H as (Hnone & Ht). split; [|lia].
    intros j Hj. apply Hnone. lia.
Qed.

Section CatalogFacts.
Import SetupDb.

Lemma has_table_app name k k' :
  has_table name (k ++ k') = has_table name k || has_table name k'.
Proof. unfold has_table. apply existsb_app. Qed.

Lemma create_table_extends t k :
  exists added, create_table_if_not_exists t k = k ++ added.
Proof.
  unfold create_table_if_not_exists.
  destruct (existsb _ k); [exists []; now rewrite app_nil_r|now exists [t]].
Qed.

Lemma create_table_has t k :
  has_table (t_name t) (create_table_if_not_exists t k) = true.
Proof.
  unfold create_table_if_not_exists, has_table.
  destruct (existsb (fun x => String.eqb (t_name x) (t_name t)) k) eqn:E;
    [exact E|].
  rewrite existsb_app. simpl. rewrite String.eqb_refl.
  now rewrite orb_true_r.
Qed.

Lemma create_table_present t k :
  has_table (t_name t) k = true -> create_table_if_not_exists t k = k.
Proof.
  unfold create_table_if_not_exists, has_table. now intros ->.
Qed.

Lemma create_table_keeps name t k :
  has_table name k = true ->
  has_table name (create_table_if_not_exists t k) = true.
Proof.
  intros H. destruct (create_table_extends t k) as [added ->].
  rewrite has_table_app, H. reflexivity.
Qed.
End CatalogFacts.

(** X18: [create_tables] can be run on any keyspace and run again: it keeps
    every table already there, as it is and in place, afterwards both
    [messages_by_conversation] and [conversations_by_user] exist, and a
    second run changes nothing. *)
Theorem create_tables_is_idempotent :
  forall (keyspace : list SetupDb.table),
    (exists added, SetupDb.create_tables keyspace = keyspace ++ added)
    /\ SetupDb.has_table "messages_by_conversation"
         (SetupDb.create_tables keyspace) = true
    /\ SetupDb.has_table "conversations_by_user"
         (SetupDb.create_tables keyspace) = true
    /\ SetupDb.create_tables (SetupDb.create_tables keyspace)
       = SetupDb.create_tables keyspace.
Proof.
  intros keyspace.
  assert (Hm : SetupDb.has_table "messages_by_conversation"
                 (SetupDb.create_tables keyspace) = true).
  { unfold SetupDb.create_tables. apply create_table_keeps.
    apply (create_table_has SetupDb.messages_by_conversation). }
  assert (Hc : SetupDb.has_table "conversations_by_user"
                 (SetupDb.create_tables keyspace) = true).
  { unfold SetupDb.create_tables.
    apply (create_table_has SetupDb.conversations_by_user). }
  repeat split.
  - unfold SetupDb.create_tables.
    destruct (create_table_extends SetupDb.messages_by_conversation keyspace)
      as [added1 ->].
    destruct (create_table_extends SetupDb.conversations_by_user
                (keyspace ++ added1)) as [added2 ->].
    exists (added1 ++ added2). now rewrite app_assoc.
  - exact Hm.
  - exact Hc.
  - unfold SetupDb.create_tables at 1.
    rewrite (create_table_present SetupDb.messages_by_conversation) by exact Hm.
    now rewrite (create_table_present SetupDb.conversations_by_user) by exact Hc.
Qed.

(** ** Test data *)

Section TestDataFacts.
Import TestData.
Variable second : Z.
Variable test_message : nat -> UUID -> string.
Hypothesis second_positive : 0 < second.

Lemma log_of_insert_fresh s c ts sender text :
  (forall r, In r (log_of s c) -> lr_message_ts r <> ts) ->
  log_of (insert_log_row s c ts sender text) c
  = log_of s c
    ++ [ {| lr_conversation_id := c; lr_message_ts := ts;
            lr_sender_id := sender; lr_content := text |} ].
Proof.
  intros Hfresh. unfold insert_log_row, log_of. simpl.
  rewrite upsert_fresh.
  - rewrite filter_app. simpl. now rewrite Z.eqb_refl.
  - intros x Hx. unfold same_log_key. simpl.
    destruct (c =? lr_conversation_id x) eqn:E; [|reflexivity].
    apply Z.eqb_eq in E. simpl. apply Z.eqb_neq.
    intros Heq. apply (Hfresh x); [|now symmetry].
    unfold log_of. apply filter_In. split; [exact Hx|].
    apply Z.eqb_eq. now symmetry.
Qed.

Lemma log_of_insert_other s c ts sender text c' :
  c' <> c ->
  log_of (insert_log_row s c ts sender text) c' = log_of s c'.
Proof.
  intros Hc. unfold insert_log_row, log_of. simpl.
  assert (Hne : (c =? c') = false) by (apply Z.eqb_neq; congruence).
  apply filter_upsert_other; simpl; [exact Hne|].
  intros x Hx. unfold same_log_key in Hx. simpl in Hx.
  apply andb_true_iff in Hx. destruct Hx as [Hx _].
  apply Z.eqb_eq in Hx. now rewrite <- Hx.
Qed.

Lemma msg_time_decreases d i j :
  (i < j)%nat -> msg_time second d j < msg_time second d i.
Proof. unfold msg_time. intros H. nia. Qed.

Lemma message_loop_log d :
  forall (remaining i : nat) (s : Store),
    (forall r, In r (log_of s (d_conversation_id d)) ->
               msg_time second d i <= lr_message_ts r - 1) ->
    log_of (message_loop second test_message d i remaining s)
           (d_conversation_id d)
    = log_of s (d_conversation_id d)
      ++ map (log_row_of second test_message d) (seq i remaining).
Proof.
  induction remaining as [|remaining IH]; intros i s Habove; simpl.
  - now rewrite app_nil_r.
  - assert (Hstep :
              log_of (insert_log_row s (d_conversation_id d)
                        (msg_time second d i) (d_sender d i)
                        (test_message i (d_sender d i)))
                     (d_conversation_id d)
              = log_of s (d_conversation_id d)
                ++ [log_row_of second test_message d i]).
    { apply log_of_insert_fresh. intros r Hr E.
      specialize (Habove r Hr). lia. }
    rewrite IH.
    + rewrite Hstep, <- app_assoc. reflexivity.
    + intros r Hr. rewrite Hstep in Hr.
      pose proof (msg_time_decreases d i (S i) ltac:(lia)) as Hdec.
      apply in_app_or in Hr. destruct Hr as [Hr|[<-|[]]].
      * specialize (Habove r Hr). lia.
      * simpl. lia.
Qed.

Lemma message_loop_other d c' :
  c' <> d_conversation_id d ->
  forall (remaining i : nat) (s : Store),
    log_of (message_loop second test_message d i remaining s) c'
    = log_of s c'.
Proof.
  intros Hc. induction remaining as [|remaining IH]; intros i s; simpl;
    [reflexivity|].
  rewrite IH. now apply log_of_insert_other.
Qed.

Lemma message_loop_memberships d :
  forall (remaining i : nat) (s : Store),
    conversations_by_user (message_loop second test_message d i remaining s)
    = conversations_by_user s.
Proof.
  induction remaining as [|remaining IH]; intros i s; simpl; [reflexivity|].
  now rewrite IH.
Qed.

Lemma generate_conversation_log s d :
  log_of s (d_conversation_id d) = [] ->
  log_of (generate_conversation second test_message s d) (d_conversation_id d)
  = map (log_row_of second test_message d) (seq 0 (d_num_messages d)).
Proof.
  intros Hempty. unfold generate_conversation, log_of. simpl.
  fold (log_of (message_loop second test_message d 0 (d_num_messages d) s)
               (d_conversation_id d)).
  rewrite message_loop_log; [now rewrite Hempty|].
  rewrite Hempty. intros r [].
Qed.

Lemma generate_conversation_other s d c' :
  c' <> d_conversation_id d ->
  log_of (generate_conversation second test_message s d) c' = log_of s c'.
Proof.
  intros Hc. unfold generate_conversation, log_of. simpl.
  fold (log_of (message_loop second test_message d 0 (d_num_messages d) s) c').
  now apply message_loop_other.
Qed.

Lemma generate_test_data_other c' :
  forall (draws : list draw) (s : Store),
    ~ In c' (map d_conversation_id draws) ->
    log_of (generate_test_data second test_message s draws) c' = log_of s c'.
Proof.
  induction draws as [|d draws IH]; intros s Hnot; simpl; [reflexivity|].
  unfold generate_test_data in *. simpl. rewrite IH.
  - apply generate_conversation_other. intros E. apply Hnot. now left.
  - intros Hin. apply Hnot. now right.
Qed.

Lemma generate_test_data_log :
  forall (draws : list draw) (s : Store) (d : draw),
    NoDup (map d_conversation_id draws) ->
    (forall x, In x draws -> log_of s (d_conversation_id x) = []) ->
    In d draws ->
    log_of (generate_test_data second test_message s draws)
           (d_conversation_id d)
    = map (log_row_of second test_message d) (seq 0 (d_num_messages d)).
Proof.
  induction draws as [|x draws IH]; intros s d Hn Hempty Hin; [destruct Hin|].
  simpl in Hn. inversion Hn as [|? ? Hnot Hn']; subst.
  unfold generate_test_data in *. simpl.
  destruct Hin as [->|Hin].
  - fold (generate_test_data second test_message
            (generate_conversation second test_message s d) draws).
    rewrite generate_test_data_other by exact Hnot.
    apply generate_conversation_log. apply Hempty. now left.
  - apply IH; [exact Hn'| |exact Hin].
    intros y Hy. rewrite generate_conversation_other.
    + apply Hempty. now right.
    + intros E. apply Hnot. rewrite <- E. now apply in_map.
Qed.

Lemma msg_times_distinct d (n i : nat) :
  NoDup (map (msg_time second d) (seq i n)).
Proof.
  revert i. induction n as [|n IH]; intros i; simpl; constructor; [|apply IH].
  intros Hin. apply in_map_iff in Hin. destruct Hin as (j & Hj & Hseq).
  apply in_seq in Hseq.
  pose proof (msg_time_decreases d i j ltac:(lia)). lia.
Qed.
End TestDataFacts.

(** X19: when the conversation ids drawn by [generate_test_data] are
    pairwise distinct and new to the message table, and a second has a
    positive length on the store's clock, every generated conversation ends
    up holding exactly its [num_messages] messages, message [i] stamped
    [base_time] minus [i] minutes: the timestamps are pairwise distinct, so
    no message overwrites another. *)
Theorem generate_test_data_stores_every_message :
  forall (second : Z) (test_message : nat -> UUID -> string)
         (s : TestData.Store) (draws : list TestData.draw) (d : TestData.draw),
    0 < second ->
    NoDup (map TestData.d_conversation_id draws) ->
    (forall x, In x draws ->
               TestData.log_of s (TestData.d_conversation_id x) = []) ->
    In d draws ->
    let stored :=
      TestData.log_of (TestData.generate_test_data second test_message s draws)
                      (TestData.d_conversation_id d) in
    stored = map (TestData.log_row_of second test_message d)
                 (seq 0 (TestData.d_num_messages d))
    /\ List.length stored = TestData.d_num_messages d
    /\ NoDup (map TestData.lr_message_ts stored)
    /\ Forall (fun r => TestData.lr_message_ts r <= TestData.d_base_time d)
              stored.
Proof.
  intros second test_message s draws d Hs Hn Hempty Hin stored.
  assert (H : stored = map (TestData.log_row_of second test_message d)
                           (seq 0 (TestData.d_num_messages d)))
    by now apply generate_test_data_log.
  split; [exact H|]. rewrite H. repeat split.
  - now rewrite length_map, length_seq.
  - rewrite map_map. simpl. now apply msg_times_distinct.
  - apply Forall_map. apply Forall_forall. intros i _. simpl.
    unfold TestData.msg_time. nia.
Qed.

Lemma generate_test_data_witness :
  List.length
    (TestData.log_of
       (TestData.generate_test_data 1000 (fun _ _ => "Test message")
          TestData.empty TestData.two_turns) 101)
  = 10%nat.
Proof.
  apply (generate_test_data_stores_every_message
           1000 (fun _ _ => "Test message") TestData.empty TestData.two_turns
           (nth 1 TestData.two_turns
                {| TestData.d_user_a := 0; TestData.d_user_b := 0;
                   TestData.d_conversation_id := 0;
                   TestData.d_num_messages := 0; TestData.d_base_time := 0;
                   TestData.d_sender := fun _ => 0 |})).
  - lia.
  - repeat constructor; simpl; intuition discriminate.
  - intros x Hx. reflexivity.
  - simpl. auto.
Defined.

(** X20: one turn of [generate_test_data] leaves both membership rows of
    its conversation in [conversations_by_user], one under each sampled user
    with the other as peer, both stamped [base_time]; membership rows of
    other users are kept. *)
Theorem generate_conversation_writes_both_memberships :
  forall (second : Z) (test_message : nat -> UUID -> string)
         (s : TestData.Store) (d : TestData.draw),
    let s' := TestData.generate_conversation second test_message s d in
    In {| Storage.user_id := TestData.d_user_a d;
          Storage.last_message_ts := TestData.d_base_time d;
          Storage.conversation_id := TestData.d_conversation_id d;
          Storage.peer_id := TestData.d_user_b d |}
       (TestData.conversations_by_user s')
    /\ In {| Storage.user_id := TestData.d_user_b d;
             Storage.last_message_ts := TestData.d_base_time d;
             Storage.conversation_id := TestData.d_conversation_id d;
             Storage.peer_id := TestData.d_user_a d |}
          (TestData.conversations_by_user s')
    /\ (forall r, In r (TestData.conversations_by_user s) ->
                  Storage.user_id r <> TestData.d_user_a d ->
                  Storage.user_id r <> TestData.d_user_b d ->
                  In r (TestData.conversations_by_user s')).
Proof.
  intros second test_message s d s'. unfold s', TestData.generate_conversation.
  simpl. rewrite message_loop_memberships.
  set (ra := {| Storage.user_id := TestData.d_user_a d;
                Storage.last_message_ts := TestData.d_base_time d;
                Storage.conversation_id := TestData.d_conversation_id d;
                Storage.peer_id := TestData.d_user_b d |}).
  set (rb := {| Storage.user_id := TestData.d_user_b d;
                Storage.last_message_ts := TestData.d_base_time d;
                Storage.conversation_id := TestData.d_conversation_id d;
                Storage.peer_id := TestData.d_user_a d |}).
  split; [|split].
  - destruct (Storage.same_conversation_key rb ra) eqn:E.
    + unfold Storage.same_conversation_key in E. simpl in E.
      apply andb_true_iff in E. destruct E as [E _]. apply Z.eqb_eq in E.
      replace ra with rb by (unfold ra, rb; now rewrite E).
      apply upsert_keeps_row.
    + apply upsert_keeps_unless; [apply upsert_keeps_row|exact E].
  - apply upsert_keeps_row.
  - intros r Hr Ha Hb.
    apply upsert_keeps_unless; [apply upsert_keeps_unless|].
    + exact Hr.
    + unfold Storage.same_conversation_key. simpl.
      replace (TestData.d_user_a d =? Storage.user_id r) with false;
        [reflexivity|]. symmetry. apply Z.eqb_neq. congruence.
    + unfold Storage.same_conversation_key. simpl.
      replace (TestData.d_user_b d =? Storage.user_id r) with false;
        [reflexivity|]. symmetry. apply Z.eqb_neq. congruence.
Qed.

(** ** The resolver on users that already have a conversation *)

(** X21: when either user already has a membership row, whoever its peer
    is, the resolver creates nothing: it leaves the store as it is and
    returns the conversation id of a stored row of one of the two users. *)
Theorem resolver_reuses_any_conversation_of_either_user :
  forall (s : Storage.Store) (uuid4 : UUID) (utcnow : datetime) (a b : UUID)
         (r : Storage.conversation_row),
    In r (Storage.conversations_by_user s) ->
    Storage.user_id r = a \/ Storage.user_id r = b ->
    exists row,
      In row (Storage.conversations_by_user s)
      /\ (Storage.user_id row = a \/ Storage.user_id row = b)
      /\ ConversationModel.create_or_get_conversation s uuid4 utcnow a b
         = (s, Storage.conversation_id row).
Proof.
  intros s uuid4 utcnow a b r Hr Huser.
  unfold ConversationModel.create_or_get_conversation,
    Storage.select_conversation_of_either, Storage.limit_rows.
  set (p := fun x => (Storage.user_id x =? a) || (Storage.user_id x =? b)).
  assert (Hin : In r (filter p (Storage.conversations_by_user s))).
  { apply filter_In. split; [exact Hr|]. unfold p.
    apply orb_true_iff. destruct Huser as [<-|<-];
      [left|right]; apply Z.eqb_refl. }
  destruct (filter p (Storage.conversations_by_user s)) as [|row rest] eqn:E;
    [destruct Hin|].
  assert (Hrow : In row (filter p (Storage.conversations_by_user s)))
    by (rewrite E; now left).
  apply filter_In in Hrow. destruct Hrow as [Hrow Hp].
  exists row. split; [exact Hrow|]. split; [|reflexivity].
  unfold p in Hp. apply orb_true_iff in Hp.
  destruct Hp as [Hp|Hp]; apply Z.eqb_eq in Hp; auto.
Qed.

Lemma resolver_reuses_witness :
  exists row,
    In row (Storage.conversations_by_user Scenario.paired)
    /\ (Storage.user_id row = 1 \/ Storage.user_id row = 9)
    /\ ConversationModel.create_or_get_conversation Scenario.paired 300 8 1 9
       = (Scenario.paired, Storage.conversation_id row).
Proof.
  apply (resolver_reuses_any_conversation_of_either_user
           Scenario.paired 300 8 1 9
           {| Storage.user_id := 1; Storage.last_message_ts := 5;
              Storage.conversation_id := 100; Storage.peer_id := 2 |}).
  - simpl. auto.
  - simpl. auto.
Defined.
